(** * phost: the deployment / version lifecycle of [serversite/views.py]

    A shallow embedding of the Django views that create, read and delete
    static deployments and their versions, together with the part of the
    ORM and of the request decorators that the views rely on.

    - The two tables of [migrations/0001_initial.py] are lists of rows in
      insertion order.  Both models declare [ordering = ['created_on']] and
      [created_on] is [auto_now_add], so a query returns rows in insertion
      order; the timestamp itself is not stored in the model.
    - A view is a computation over a [World]: the database and the log of
      the calls made into the [upload] module; whether a call returns or
      raises is given by an oracle over that log.
    - Python exceptions are values of [exn]; [transaction.atomic()] restores
      the rows when its body raises. *)

From Stdlib Require Import List String Ascii ZArith Bool Lia.
From Stdlib Require Import DecimalString DecimalZ.
From Stdlib Require Import Permutation.
Import ListNotations.

Local Open Scope string_scope.
Local Open Scope Z_scope.
Local Open Scope list_scope.

(** ** Exceptions and responses *)

Inductive Model := StaticDeploymentModel | DeploymentVersionModel.

Definition Model_eqb (a b : Model) : bool :=
  match a, b with
  | StaticDeploymentModel, StaticDeploymentModel => true
  | DeploymentVersionModel, DeploymentVersionModel => true
  | _, _ => false
  end.

(** The exception classes that the views raise, catch or let through.
    [OSError] stands for the filesystem and archive errors of the upload
    module. *)
Inductive exn :=
| BadInputException (msg : string)
| NotFound
| NotAuthenticated
| InvalidCredentials (msg : string)
| IntegrityError (msg : string)
| DoesNotExist (model : Model)
| MultipleObjectsReturned (model : Model)
| StopIteration
| MultiValueDictKeyError (key : string)
| ValueError (msg : string)
| AttributeError (msg : string)
| OSError (msg : string).

Inductive result (A : Type) :=
| Ok (a : A)
| Raise (e : exn).
Arguments Ok {A} a.
Arguments Raise {A} e.

(** ** The data model (migrations/0001_initial.py, plus the [active] flag
    that the views read and write) *)

Record StaticDeployment := mkStaticDeployment {
  sd_id : Z;
  sd_name : string;
  sd_subdomain : string
}.

Record DeploymentVersion := mkDeploymentVersion {
  dv_id : Z;
  dv_version : string;
  dv_deployment : Z;          (* foreign key, on_delete=CASCADE *)
  dv_active : bool
}.

#[projections(primitive)]
Record Tables := mkTables {
  deployments : list StaticDeployment;
  versions : list DeploymentVersion
}.

(** The rows and the two AutoField counters.  A counter is not part of the
    rows: a rolled back insert does not give its id back. *)
#[projections(primitive)]
Record DB := mkDB {
  tables : Tables;
  next_deployment_id : Z;
  next_version_id : Z
}.

Definition UploadedFile := list Byte.byte.

(** What [delete_hosted_deployment] receives: [Deployment.delete] passes
    [deployment_data["name"]], [DeploymentVersionView.delete] passes the
    model instance. *)
Inductive DeploymentArg :=
| ByName (name : string)
| ByInstance (deployment : StaticDeployment).

(** The calls into [upload].  [init] is [None] where the caller leaves the
    keyword at its default. *)
Inductive FsCall :=
| handle_uploaded_static_archive_call
    (file : UploadedFile) (subdomain version : string) (init : option bool)
| update_symlink_call (deployment_name version : string)
| delete_hosted_deployment_call (deployment : DeploymentArg)
| delete_hosted_version_call (deployment_name version : string).

#[projections(primitive)]
Record World := mkWorld {
  db : DB;
  fs_calls : list FsCall      (* oldest first *)
}.

Record HttpRequest := mkHttpRequest {
  user_is_authenticated : bool;
  GET_lookupField : option string;
  POST : list (string * string);
  FILES_file : option UploadedFile
}.

Record StaticDeploymentForm := mkForm {
  form_name : string;
  form_subdomain : string;
  form_version : string
}.

Inductive Json :=
| SuccessJson                                   (* {"success": True, "error": False} *)
| CreatedJson (name subdomain version url : string)
| DeploymentJson (deployment_data : StaticDeployment)
                 (versions_list : list string) (active_version : string)
| VersionJson (version_data : DeploymentVersion)
| DeploymentsJson (data : list (StaticDeployment * list DeploymentVersion)).

Inductive HttpResponse :=
| JsonResponse (body : Json)
| HttpResponseBadRequest (msg : string)
| HttpResponseNotFound
| HttpResponseForbidden (msg : string)
| HttpResponseServerError (msg : string).

(** ** Strings *)

(** [needle in hay] on Python strings. *)
Fixpoint str_in (needle hay : string) : bool :=
  if String.prefix needle hay then true
  else match hay with
       | EmptyString => false
       | String _ rest => str_in needle rest
       end.

Definition dquote : string := String (ascii_of_nat 34) EmptyString.

(** [str(e)] of the IntegrityError that MySQL raises on a unique key
    (error 1062); the view recognises it by the words "Duplicate entry". *)
Definition duplicate_entry (value key : string) : string :=
  ("(1062, " ++ dquote ++ "Duplicate entry '" ++ value ++ "' for key '" ++ key
     ++ "'" ++ dquote ++ ")")%string.

(** [int(s)] as the ORM applies it to the value of an [id] lookup: the
    strings made of an optional minus sign and decimal digits have their
    value, every other string is a ValueError.  (Python reads a few more
    spellings of an integer: a plus sign, blanks around it, underscores
    between digits; no property below is about those.) *)
Definition py_int (s : string) : option Z :=
  option_map Z.of_int (NilZero.int_of_string s).

(** [str(n)] of an integer. *)
Definition py_str (n : Z) : string := NilZero.string_of_int (Z.to_int n).

(** ** The monad of a view body: state and exceptions *)

Definition M (A : Type) : Type := World -> World * result A.

Definition ret {A} (a : A) : M A := fun w => (w, Ok a).

Definition raise {A} (e : exn) : M A := fun w => (w, Raise e).

Definition bind {A B} (m : M A) (k : A -> M B) : M B :=
  fun w => match m w with
           | (w', Ok a) => k a w'
           | (w', Raise e) => (w', Raise e)
           end.

Declare Scope view_scope.
Delimit Scope view_scope with view.
Notation "x <- m ;; k" := (bind m (fun x => k))
  (at level 61, m at next level, right associativity) : view_scope.
Notation "m ;;; k" := (bind m (fun _ => k))
  (at level 61, right associativity) : view_scope.
Local Open Scope view_scope.

(** [with transaction.atomic(): body].  When the body raises, the rows go
    back to what they were on entry and the exception goes on; what was done
    to the filesystem stays done. *)
Definition atomic {A} (body : M A) : M A :=
  fun w => match body w with
           | (w', Ok a) => (w', Ok a)
           | (w', Raise e) =>
               (mkWorld (mkDB (tables (db w))
                              (next_deployment_id (db w'))
                              (next_version_id (db w')))
                        (fs_calls w'),
                Raise e)
           end.

(** ** The ORM *)

Definition deployment_versions (deployment_id : Z) (vs : list DeploymentVersion)
  : list DeploymentVersion :=
  filter (fun v => dv_deployment v =? deployment_id) vs.

(** [objects.get]: exactly one row, or an exception. *)
Definition get_one {A} (model : Model) (rows : list A) : result A :=
  match rows with
  | [] => Raise (DoesNotExist model)
  | [r] => Ok r
  | _ :: _ :: _ => Raise (MultipleObjectsReturned model)
  end.

(** [StaticDeployment.objects.get] on the one-entry dict [{field: value}];
    [get_query_dict] lets three fields through. *)
Definition select_deployments (field value : string) (t : Tables)
  : result (list StaticDeployment) :=
  if (field =? "id")%string then
    match py_int value with
    | Some n => Ok (filter (fun d => sd_id d =? n) (deployments t))
    | None => Raise (ValueError "invalid literal for int() with base 10")
    end
  else if (field =? "name")%string then
    Ok (filter (fun d => (sd_name d =? value)%string) (deployments t))
  else if (field =? "subdomain")%string then
    Ok (filter (fun d => (sd_subdomain d =? value)%string) (deployments t))
  else Raise (ValueError "Cannot resolve keyword into field").

Definition StaticDeployment_objects_get (query_dict : string * string)
  : M StaticDeployment :=
  fun w => match select_deployments (fst query_dict) (snd query_dict)
                   (tables (db w)) with
           | Ok rows => (w, get_one StaticDeploymentModel rows)
           | Raise e => (w, Raise e)
           end.

(** [DeploymentVersion.objects.filter(deployment=deployment)] *)
Definition DeploymentVersion_filter (deployment : StaticDeployment)
  : M (list DeploymentVersion) :=
  fun w => (w, Ok (deployment_versions (sd_id deployment)
                     (versions (tables (db w))))).

Definition has_label (version : string) (v : DeploymentVersion) : bool :=
  (dv_version v =? version)%string.

(** [DeploymentVersion.objects.filter(deployment=deployment, version=version)] *)
Definition DeploymentVersion_filter_version
  (deployment : StaticDeployment) (version : string)
  : M (list DeploymentVersion) :=
  fun w => (w, Ok (filter (has_label version)
                     (deployment_versions (sd_id deployment)
                        (versions (tables (db w)))))).

(** [DeploymentVersion.objects.get(deployment=deployment, version=version)] *)
Definition DeploymentVersion_objects_get_version
  (deployment : StaticDeployment) (version : string) : M DeploymentVersion :=
  fun w => (w, get_one DeploymentVersionModel
                 (filter (has_label version)
                    (deployment_versions (sd_id deployment)
                       (versions (tables (db w)))))).

(** [DeploymentVersion.objects.get(deployment=deployment, active=True)] *)
Definition DeploymentVersion_objects_get_active
  (deployment : StaticDeployment) : M DeploymentVersion :=
  fun w => (w, get_one DeploymentVersionModel
                 (filter dv_active
                    (deployment_versions (sd_id deployment)
                       (versions (tables (db w)))))).

(** [StaticDeployment(name=..., subdomain=...).save()]: an insert; both
    columns are [unique=True]. *)
Definition StaticDeployment_save (name subdomain : string)
  : M StaticDeployment :=
  fun w =>
    let d := db w in
    let t := tables d in
    if existsb (fun r => (sd_name r =? name)%string) (deployments t) then
      (w, Raise (IntegrityError (duplicate_entry name "name")))
    else if existsb (fun r => (sd_subdomain r =? subdomain)%string)
                    (deployments t) then
      (w, Raise (IntegrityError (duplicate_entry subdomain "subdomain")))
    else
      let row := mkStaticDeployment (next_deployment_id d) name subdomain in
      (mkWorld (mkDB (mkTables (deployments t ++ [row]) (versions t))
                     (next_deployment_id d + 1) (next_version_id d))
               (fs_calls w),
       Ok row).

(** [DeploymentVersion(version=..., deployment=..., active=...).save()]:
    an insert. *)
Definition DeploymentVersion_save
  (version : string) (deployment : StaticDeployment) (active : bool)
  : M DeploymentVersion :=
  fun w =>
    let d := db w in
    let t := tables d in
    let row := mkDeploymentVersion (next_version_id d) version
                 (sd_id deployment) active in
    (mkWorld (mkDB (mkTables (deployments t) (versions t ++ [row]))
                   (next_deployment_id d) (next_version_id d + 1))
             (fs_calls w),
     Ok row).

(** [instance.save()] on an instance that was read from the table: the row
    with its primary key is overwritten (and inserted when no row has it). *)
Definition overwrite_version (v : DeploymentVersion)
  (vs : list DeploymentVersion) : list DeploymentVersion :=
  if existsb (fun r => dv_id r =? dv_id v) vs
  then map (fun r => if dv_id r =? dv_id v then v else r) vs
  else vs ++ [v].

Definition DeploymentVersion_save_existing (v : DeploymentVersion) : M unit :=
  fun w =>
    let d := db w in
    let t := tables d in
    (mkWorld (mkDB (mkTables (deployments t) (overwrite_version v (versions t)))
                   (next_deployment_id d) (next_version_id d))
             (fs_calls w),
     Ok tt).

(** The rows that stay when the versions of a deployment with a given label
    are deleted. *)
Definition without_label (deployment_id : Z) (version : string)
  (vs : list DeploymentVersion) : list DeploymentVersion :=
  filter (fun v => negb ((dv_deployment v =? deployment_id)
                         && (dv_version v =? version)%string)) vs.

(** [queryset.delete()] of
    [DeploymentVersion.objects.filter(deployment=deployment, version=version)] *)
Definition DeploymentVersion_filter_version_delete
  (deployment : StaticDeployment) (version : string) : M unit :=
  fun w =>
    let d := db w in
    let t := tables d in
    (mkWorld (mkDB (mkTables (deployments t)
                      (without_label (sd_id deployment) version (versions t)))
                   (next_deployment_id d) (next_version_id d))
             (fs_calls w),
     Ok tt).

(** What a cascading delete of a deployment leaves of the two tables. *)
Definition without_deployment (deployment_id : Z) (t : Tables) : Tables :=
  mkTables (filter (fun r => negb (sd_id r =? deployment_id)) (deployments t))
           (filter (fun v => negb (dv_deployment v =? deployment_id))
                   (versions t)).

(** [deployment.delete()]: the row goes, and with it every version that
    points to it (CASCADE). *)
Definition StaticDeployment_delete (deployment : StaticDeployment) : M unit :=
  fun w =>
    let d := db w in
    (mkWorld (mkDB (without_deployment (sd_id deployment) (tables d))
                   (next_deployment_id d) (next_version_id d))
             (fs_calls w),
     Ok tt).

(** ** The modules the views import

    [validation], [forms], [models.get_url] and [upload] are used by the
    views through the functions below.  [upload_outcome calls c] is the
    exception that the call [c] raises after the calls [calls] were made, or
    [None] when it returns. *)
Record Collaborators := mkCollaborators {
  get_validated_form : HttpRequest -> result StaticDeploymentForm;
  validate_deployment_name : string -> result unit;
  validate_subdomain : string -> result unit;
  get_url : StaticDeployment -> string;
  upload_outcome : list FsCall -> FsCall -> option exn
}.

(** Modelled from the spec: [serialize(instance, json=False)] of
    serialize.py, the dict of an instance's fields ("name", "subdomain",
    "version" among them); the record itself stands for that dict. *)
Definition serialize {A : Type} (instance : A) : A := instance.

(** A model instance defines neither [__bool__] nor [__len__]. *)
Definition instance_truthy (v : DeploymentVersion) : bool := true.

(** Truth value of a queryset. *)
Definition queryset_truthy {A} (rows : list A) : bool :=
  match rows with [] => false | _ :: _ => true end.

(** [next(iterator)] without a default. *)
Definition py_next {A} (items : list A) : M A :=
  match items with
  | [] => raise StopIteration
  | x :: _ => ret x
  end.

Definition lift {A} (r : result A) : M A := fun w => (w, r).

(** [req.FILES["file"]] *)
Definition FILES_getitem_file (req : HttpRequest) : M UploadedFile :=
  match FILES_file req with
  | Some f => ret f
  | None => raise (MultiValueDictKeyError "file")
  end.

Definition set_active (b : bool) (v : DeploymentVersion) : DeploymentVersion :=
  mkDeploymentVersion (dv_id v) (dv_version v) (dv_deployment v) b.

(** ** Decorators and helpers of views.py *)

(** The [except] clauses of [with_caught_exceptions], in their order. *)
Definition exception_response (e : exn) : HttpResponse :=
  match e with
  | BadInputException msg => HttpResponseBadRequest msg
  | NotFound => HttpResponseNotFound
  | NotAuthenticated =>
      HttpResponseForbidden "You must be logged into access this view"
  | InvalidCredentials _ =>
      HttpResponseForbidden "Invalid username or password provided"
  | _ => HttpResponseServerError
           "An unhandled error occured while processing the request"
  end.

Definition with_caught_exceptions (func : M HttpResponse)
  : World -> World * HttpResponse :=
  fun w =>
    match func w with
    | (w', Ok response) => (w', response)
    | (w', Raise e) => (w', exception_response e)
    end.

Definition with_default_success {A} (func : M A) : M HttpResponse :=
  _ <- func ;; ret (JsonResponse SuccessJson).

Definition with_login_required {A} (req : HttpRequest) (func : M A) : M A :=
  if user_is_authenticated req then func else raise NotAuthenticated.

(** [get_or_none(Model, do_raise, **kwargs)]; [objects_get] is
    [Model.objects.get] applied to the keyword arguments. *)
Definition get_or_none {A} (model : Model) (objects_get : M A)
  (do_raise : bool) : M (option A) :=
  fun w =>
    match objects_get w with
    | (w', Ok a) => (w', Ok (Some a))
    | (w', Raise (DoesNotExist m)) =>
        if Model_eqb m model then
          if do_raise then (w', Raise NotFound) else (w', Ok None)
        else (w', Raise (DoesNotExist m))
    | (w', Raise e) => (w', Raise e)
    end.

(** Every caller leaves [do_raise] at its default and goes on to use the
    result as an instance. *)
Definition instance_of {A} (m : M (option A)) : M A :=
  o <- m ;;
  match o with
  | Some a => ret a
  | None => raise (AttributeError "'NoneType' object has no attribute")
  end.

Definition get_query_dict (query_string : string) (req : HttpRequest)
  : M (string * string) :=
  let lookup_field :=
    match GET_lookupField req with Some f => f | None => "id" end in
  if negb (existsb (String.eqb lookup_field) ["id"; "subdomain"; "name"])
  then raise (BadInputException "The supplied `lookupField` was invalid")
  else ret (lookup_field, query_string).

(** The [except IntegrityError as e] clause of [Deployments.post]. *)
Definition except_IntegrityError {A} (body : M A) : M A :=
  fun w =>
    match body w with
    | (w', Raise (IntegrityError msg)) =>
        if str_in "Duplicate entry" msg
        then (w', Raise (BadInputException
                           "`name` and `subdomain` must be unique!"))
        else (w', Raise (IntegrityError msg))
    | other => other
    end.

Section Views.

Variable env : Collaborators.

(** A call into the upload module: logged, then it returns or raises. *)
Definition upload (c : FsCall) : M unit :=
  fun w =>
    let w' := mkWorld (db w) (fs_calls w ++ [c]) in
    match upload_outcome env (fs_calls w) c with
    | None => (w', Ok tt)
    | Some e => (w', Raise e)
    end.

(** *** class Deployments *)

Definition Deployments_get (request : HttpRequest)
  : World -> World * HttpResponse :=
  with_caught_exceptions (with_login_required request (
    fun w =>
      let t := tables (db w) in
      (w, Ok (JsonResponse (DeploymentsJson
                (map (fun d => (serialize d,
                                serialize (deployment_versions (sd_id d)
                                             (versions t))))
                     (deployments t))))))).

(** The body of the [with transaction.atomic()] block of
    [Deployments.post]. *)
Definition initial_upload_transaction
  (request : HttpRequest) (deployment_name subdomain version : string)
  : M StaticDeployment :=
  deployment_descriptor <- StaticDeployment_save deployment_name subdomain ;;
  version_model <- DeploymentVersion_save version deployment_descriptor true ;;
  file <- FILES_getitem_file request ;;
  upload (handle_uploaded_static_archive_call file subdomain version None) ;;;
  ret deployment_descriptor.

(** InitialUpload *)
Definition Deployments_post (request : HttpRequest)
  : World -> World * HttpResponse :=
  with_caught_exceptions (with_login_required request (
    form <- lift (get_validated_form env request) ;;
    let deployment_name := form_name form in
    let subdomain := form_subdomain form in
    let version := form_version form in
    lift (validate_deployment_name env deployment_name) ;;;
    lift (validate_subdomain env subdomain) ;;;
    deployment_descriptor <-
      except_IntegrityError (atomic (
        initial_upload_transaction request deployment_name subdomain version)) ;;
    ret (JsonResponse (CreatedJson deployment_name subdomain version
                         (get_url env deployment_descriptor))))).

(** *** class Deployment *)

(** lookup *)
Definition Deployment_get (req : HttpRequest) (deployment_id : string)
  : World -> World * HttpResponse :=
  with_caught_exceptions (
    query_dict <- get_query_dict deployment_id req ;;
    deployment <- instance_of (get_or_none StaticDeploymentModel
                                 (StaticDeployment_objects_get query_dict) true) ;;
    versions <- DeploymentVersion_filter deployment ;;
    active_version <- py_next (filter dv_active versions) ;;
    let deployment_data := serialize deployment in
    let versions_data := serialize versions in
    let versions_list := map dv_version versions_data in
    ret (JsonResponse (DeploymentJson deployment_data versions_list
                         (dv_version (serialize active_version))))).

(** DeleteDeployment *)
Definition Deployment_delete (req : HttpRequest) (deployment_id : string)
  : World -> World * HttpResponse :=
  with_caught_exceptions (with_login_required req (with_default_success (
    atomic (
      query_dict <- get_query_dict deployment_id req ;;
      deployment <- instance_of (get_or_none StaticDeploymentModel
                                   (StaticDeployment_objects_get query_dict) true) ;;
      let deployment_data := serialize deployment in
      StaticDeployment_delete deployment ;;;
      upload (delete_hosted_deployment_call (ByName (sd_name deployment_data))))))).

(** *** class DeploymentVersionView *)

Definition DeploymentVersionView_get
  (req : HttpRequest) (deployment_id version : string)
  : World -> World * HttpResponse :=
  with_caught_exceptions (
    query_dict <- get_query_dict deployment_id req ;;
    deployment <- instance_of (get_or_none StaticDeploymentModel
                                 (StaticDeployment_objects_get query_dict) true) ;;
    version_model <- instance_of (get_or_none DeploymentVersionModel
                       (DeploymentVersion_objects_get_version deployment version)
                       true) ;;
    ret (JsonResponse (VersionJson (serialize version_model)))).

(** The body of the [with transaction.atomic()] block of
    [DeploymentVersionView.post]. *)
Definition new_version_transaction
  (req : HttpRequest) (deployment : StaticDeployment) (version : string)
  : M DeploymentVersion :=
  old_version <- DeploymentVersion_objects_get_active deployment ;;
  (if instance_truthy old_version
   then DeploymentVersion_save_existing (set_active false old_version)
   else ret tt) ;;;
  version_model <- DeploymentVersion_save version deployment true ;;
  let deployment_data := serialize deployment in
  file <- FILES_getitem_file req ;;
  upload (handle_uploaded_static_archive_call
            file (sd_subdomain deployment_data) version (Some false)) ;;;
  upload (update_symlink_call (sd_name deployment_data) version) ;;;
  ret version_model.

(** NewVersionUpload *)
Definition DeploymentVersionView_post
  (req : HttpRequest) (deployment_id version : string)
  : World -> World * HttpResponse :=
  with_caught_exceptions (with_login_required req (
    query_dict <- get_query_dict deployment_id req ;;
    deployment <- instance_of (get_or_none StaticDeploymentModel
                                 (StaticDeployment_objects_get query_dict) true) ;;
    same_label <- DeploymentVersion_filter_version deployment version ;;
    if queryset_truthy same_label
    then raise (BadInputException "The new version name must be unique.")
    else
      version_model <- atomic (new_version_transaction req deployment version) ;;
      ret (JsonResponse (VersionJson (serialize version_model))))).

(** DeleteVersion *)
Definition DeploymentVersionView_delete
  (req : HttpRequest) (deployment_id version : string)
  : World -> World * HttpResponse :=
  with_caught_exceptions (with_login_required req (with_default_success (
    atomic (
      query_dict <- get_query_dict deployment_id req ;;
      deployment <- instance_of (get_or_none StaticDeploymentModel
                                   (StaticDeployment_objects_get query_dict) true) ;;
      DeploymentVersion_filter_version_delete deployment version ;;;
      remaining <- DeploymentVersion_filter deployment ;;
      delete_deployment <-
        (if negb (queryset_truthy remaining)
         then StaticDeployment_delete deployment ;;; ret true
         else ret false) ;;
      if (delete_deployment : bool)
      then upload (delete_hosted_deployment_call (ByInstance deployment))
      else
        let deployment_data := serialize deployment in
        upload (delete_hosted_version_call (sd_name deployment_data) version))))).

End Views.

(** ** Vocabulary of the properties *)

(** The two lines every single-deployment view starts with:
    [get_query_dict] and [get_or_none(StaticDeployment, ...)]. *)
Definition lookup_deployment (req : HttpRequest) (deployment_id : string)
  : M StaticDeployment :=
  query_dict <- get_query_dict deployment_id req ;;
  instance_of (get_or_none StaticDeploymentModel
                 (StaticDeployment_objects_get query_dict) true).

Definition lookup_field (req : HttpRequest) : string :=
  match GET_lookupField req with Some f => f | None => "id" end.

Definition recognized_field (field : string) : bool :=
  existsb (String.eqb field) ["id"; "subdomain"; "name"].


Definition is_failure (r : HttpResponse) : bool :=
  match r with JsonResponse _ => false | _ => true end.

Definition active_versions (d : StaticDeployment) (t : Tables)
  : list DeploymentVersion :=
  filter dv_active (deployment_versions (sd_id d) (versions t)).

(** Exactly one version of every deployment is active. *)
Definition one_active_each (t : Tables) : bool :=
  forallb (fun d => (List.length (active_versions d t) =? 1)%nat) (deployments t).

Fixpoint distinct (l : list Z) : bool :=
  match l with
  | [] => true
  | x :: rest => negb (existsb (Z.eqb x) rest) && distinct rest
  end.

(** What the database itself guarantees: primary keys are distinct and below
    their counter, and a version points to a deployment id that has been
    handed out. *)
Definition db_consistent (d : DB) : bool :=
  forallb (fun r => sd_id r <? next_deployment_id d) (deployments (tables d))
  && forallb (fun v => dv_deployment v <? next_deployment_id d)
       (versions (tables d))
  && forallb (fun v => dv_id v <? next_version_id d) (versions (tables d))
  && distinct (map sd_id (deployments (tables d)))
  && distinct (map dv_id (versions (tables d))).

(** What [with_caught_exceptions] answers to an exception it does not know. *)
Definition server_error : HttpResponse :=
  HttpResponseServerError
    "An unhandled error occured while processing the request".

(** The exception that leaves [Deployments.post] when its transaction
    raises [e]. *)
Definition after_except_IntegrityError (e : exn) : exn :=
  match e with
  | IntegrityError msg =>
      if str_in "Duplicate entry" msg
      then BadInputException "`name` and `subdomain` must be unique!"
      else e
  | _ => e
  end.

(** The row that [StaticDeployment.save] inserts in [w]. *)
Definition new_deployment (w : World) (form : StaticDeploymentForm) :=
  mkStaticDeployment (next_deployment_id (db w)) (form_name form)
    (form_subdomain form).

Definition new_version (w : World) (deployment_id : Z) (version : string) :=
  mkDeploymentVersion (next_version_id (db w)) version deployment_id true.

Definition name_taken (name : string) (w : World) : bool :=
  existsb (fun r => (sd_name r =? name)%string) (deployments (tables (db w))).

Definition subdomain_taken (subdomain : string) (w : World) : bool :=
  existsb (fun r => (sd_subdomain r =? subdomain)%string)
    (deployments (tables (db w))).

(** ** Concrete collaborators and worlds for the examples *)

Fixpoint POST_get (key : string) (post : list (string * string))
  : option string :=
  match post with
  | [] => None
  | (k, v) :: rest => if (k =? key)%string then Some v else POST_get key rest
  end.

(** A form that wants its three text fields present, and validators that
    want them non-empty. *)
Definition example_form (req : HttpRequest) : result StaticDeploymentForm :=
  match POST_get "name" (POST req), POST_get "subdomain" (POST req),
        POST_get "version" (POST req) with
  | Some n, Some s, Some v => Ok (mkForm n s v)
  | _, _, _ => Raise (BadInputException "Invalid form")
  end.

Definition example_validate (s : string) : result unit :=
  match s with
  | EmptyString => Raise (BadInputException "must not be empty")
  | String _ _ => Ok tt
  end.

Definition example_url (d : StaticDeployment) : string :=
  ("https://" ++ sd_subdomain d ++ ".example.com/")%string.

(** The filesystem never fails. *)
Definition env_ok : Collaborators :=
  mkCollaborators example_form example_validate example_validate example_url
    (fun _ _ => None).

(** [update_symlink] fails, everything else works. *)
Definition env_symlink_fails : Collaborators :=
  mkCollaborators example_form example_validate example_validate example_url
    (fun _ c => match c with
                | update_symlink_call _ _ => Some (OSError "symlink")
                | _ => None
                end).

(** Archive extraction fails, everything else works. *)
Definition env_extract_fails : Collaborators :=
  mkCollaborators example_form example_validate example_validate example_url
    (fun _ c => match c with
                | handle_uploaded_static_archive_call _ _ _ _ =>
                    Some (OSError "bad archive")
                | _ => None
                end).

(** Deleting a directory fails, everything else works. *)
Definition env_delete_fails : Collaborators :=
  mkCollaborators example_form example_validate example_validate example_url
    (fun _ c => match c with
                | delete_hosted_deployment_call _ => Some (OSError "rmtree")
                | delete_hosted_version_call _ _ => Some (OSError "rmtree")
                | _ => None
                end).

Definition empty_world : World :=
  mkWorld (mkDB (mkTables [] []) 1 1) [].

Definition archive : UploadedFile := [Byte.x50; Byte.x4b].

Definition upload_request (name subdomain version : string) : HttpRequest :=
  mkHttpRequest true None
    [("name", name); ("subdomain", subdomain); ("version", version)]
    (Some archive).

(** An authenticated request that addresses a deployment by [field]. *)
Definition by_field (field : string) : HttpRequest :=
  mkHttpRequest true (Some field) [] (Some archive).

(** After [POST /deployments] of ("blog", "blog-sub", "v1"). *)
Definition world_v1 : World :=
  fst (Deployments_post env_ok (upload_request "blog" "blog-sub" "v1")
         empty_world).

(** ... and then the upload of "v2". *)
Definition world_v2 : World :=
  fst (DeploymentVersionView_post env_ok (by_field "name") "blog" "v2" world_v1).

(** ... and then the deletion of "v2", the active version. *)
Definition world_v2_deleted : World :=
  fst (DeploymentVersionView_delete env_ok (by_field "name") "blog" "v2"
         world_v2).

Definition blog : StaticDeployment := mkStaticDeployment 1 "blog" "blog-sub".

Definition blog_v1 (active : bool) : DeploymentVersion :=
  mkDeploymentVersion 1 "v1" 1 active.

Definition blog_v2 : DeploymentVersion := mkDeploymentVersion 2 "v2" 1 true.

(** ** The lifecycle as a transition system *)

(** One lifecycle request, whatever its answer. *)
Inductive lifecycle_step (env : Collaborators) : World -> World -> Prop :=
| InitialUpload request w :
    lifecycle_step env w (fst (Deployments_post env request w))
| NewVersionUpload req deployment_id version w :
    lifecycle_step env w
      (fst (DeploymentVersionView_post env req deployment_id version w))
| DeleteVersion req deployment_id version w :
    lifecycle_step env w
      (fst (DeploymentVersionView_delete env req deployment_id version w))
| DeleteDeployment req deployment_id w :
    lifecycle_step env w (fst (Deployment_delete env req deployment_id w)).

(** The worlds that requests can lead to from empty tables. *)
Inductive reachable (env : Collaborators) : World -> Prop :=
| reachable_empty dep_id ver_id calls :
    reachable env (mkWorld (mkDB (mkTables [] []) dep_id ver_id) calls)
| reachable_step w w' :
    reachable env w -> lifecycle_step env w w' -> reachable env w'.

(** Rows untouched, counters not lowered. *)
Definition rows_unchanged (d d' : DB) : Prop :=
  tables d' = tables d
  /\ next_deployment_id d <= next_deployment_id d'
  /\ next_version_id d <= next_version_id d'.

(** ** What the lifecycle keeps *)

(** At most one version of every deployment is active. *)
Definition at_most_one_active (t : Tables) : Prop :=
  forall d, In d (deployments t) ->
            (List.length (active_versions d t) <= 1)%nat.

(** Every version belongs to a deployment of the table. *)
Definition versions_owned (t : Tables) : Prop :=
  forall v, In v (versions t) ->
            exists d, In d (deployments t) /\ sd_id d = dv_deployment v.

(** Every deployment has a version. *)
Definition deployments_versioned (t : Tables) : Prop :=
  forall d, In d (deployments t) ->
            deployment_versions (sd_id d) (versions t) <> [].

(** No two deployments share a name, none share a subdomain. *)
Definition names_unique (t : Tables) : Prop :=
  NoDup (map sd_name (deployments t))
  /\ NoDup (map sd_subdomain (deployments t)).

(** No two versions of one deployment share a label. *)
Definition labels_unique (t : Tables) : Prop :=
  forall deployment_id,
    NoDup (map dv_version (deployment_versions deployment_id (versions t))).

(** What one lifecycle request can make of the rows of [w]. *)
Inductive rows_step (w : World) : Tables -> Prop :=
| rows_kept : rows_step w (tables (db w))
| rows_created form :
    name_taken (form_name form) w = false ->
    subdomain_taken (form_subdomain form) w = false ->
    rows_step w
      (mkTables (deployments (tables (db w)) ++ [new_deployment w form])
                (versions (tables (db w))
                   ++ [new_version w (next_deployment_id (db w))
                         (form_version form)]))
| rows_new_version d old_version version :
    In d (deployments (tables (db w))) ->
    active_versions d (tables (db w)) = [old_version] ->
    filter (has_label version)
      (deployment_versions (sd_id d) (versions (tables (db w)))) = [] ->
    rows_step w
      (mkTables (deployments (tables (db w)))
                (overwrite_version (set_active false old_version)
                   (versions (tables (db w)))
                   ++ [new_version w (sd_id d) version]))
| rows_version_deleted d version :
    In d (deployments (tables (db w))) ->
    deployment_versions (sd_id d)
      (without_label (sd_id d) version (versions (tables (db w)))) <> [] ->
    rows_step w
      (mkTables (deployments (tables (db w)))
                (without_label (sd_id d) version (versions (tables (db w)))))
| rows_deployment_removed d :
    In d (deployments (tables (db w))) ->
    rows_step w (without_deployment (sd_id d) (tables (db w))).

(** ** login_user *)

(** [req.POST[key]]: the last value sent for the key. *)
Fixpoint POST_last (key : string) (post : list (string * string))
  : option string :=
  match post with
  | [] => None
  | (k, v) :: rest =>
      match POST_last key rest with
      | Some later => Some later
      | None => if (k =? key)%string then Some v else None
      end
  end.

Definition POST_getitem (key : string) (req : HttpRequest) : M string :=
  match POST_last key (POST req) with
  | Some v => ret v
  | None => raise (MultiValueDictKeyError key)
  end.

(** The [except MultiValueDictKeyError] clause of [login_user]. *)
Definition except_MultiValueDictKeyError {A} (body : M A) : M A :=
  fun w =>
    match body w with
    | (w', Raise (MultiValueDictKeyError _)) =>
        (w', Raise (BadInputException
                      "You must supply both a username and password"))
    | other => other
    end.

(** What [require_POST] lets out: its own 405 or the answer of the view. *)
Inductive MethodResponse :=
| HttpResponseNotAllowed (permitted_methods : list string)
| Handled (response : HttpResponse).

Definition require_POST (method : string)
  (view : World -> World * HttpResponse) : World -> World * MethodResponse :=
  fun w =>
    if negb (existsb (String.eqb method) ["POST"])
    then (w, HttpResponseNotAllowed ["POST"])
    else let (w', response) := view w in (w', Handled response).

Section Login.

(** [django.contrib.auth]: [authenticate] gives the user or [None],
    [login] attaches the user to the session. *)
Variable User : Type.
Variable authenticate : HttpRequest -> string -> string -> option User.
Variable login : HttpRequest -> User -> M unit.

Definition login_user (method : string) (req : HttpRequest)
  : World -> World * MethodResponse :=
  require_POST method (with_caught_exceptions (with_default_success (
    credentials <-
      except_MultiValueDictKeyError (
        username <- POST_getitem "username" req ;;
        password <- POST_getitem "password" req ;;
        ret (username, password)) ;;
    let user := authenticate req (fst credentials) (snd credentials) in
    match user with
    | Some u => login req u
    | None => raise (InvalidCredentials "Invalid username or password")
    end))).

End Login.

(** Users are their names, one password is right, and [login] does nothing
    to the tables. *)
Definition example_authenticate (_ : HttpRequest) (username password : string)
  : option string :=
  if (password =? "sesame")%string then Some username else None.

Definition example_login (_ : HttpRequest) (_ : string) : M unit := ret tt.

Definition login_request (post : list (string * string)) : HttpRequest :=
  mkHttpRequest false None post None.

(** An authenticated request without a file part. *)
Definition upload_request_without_file (name subdomain version : string)
  : HttpRequest :=
  mkHttpRequest true None
    [("name", name); ("subdomain", subdomain); ("version", version)] None.

(** A request of a visitor who is not logged in. *)
Definition anonymous (field : string) : HttpRequest :=
  mkHttpRequest false (Some field) [] (Some archive).

(** * Properties *)

(** ** The monad and the lookup prefix *)

Lemma bind_assoc {A B C} (m : M A) (f : A -> M B) (k : B -> M C) w :
  bind (bind m f) k w = bind m (fun x => bind (f x) k) w.
Proof.
  unfold bind. destruct (m w) as [w1 [a | e]]; reflexivity.
Qed.

Lemma bind_ok {A B} (m : M A) (k : A -> M B) w w' a :
  m w = (w', Ok a) -> bind m k w = k a w'.
Proof. intros H. unfold bind. rewrite H. reflexivity. Qed.

Lemma bind_raise {A B} (m : M A) (k : A -> M B) w w' e :
  m w = (w', Raise e) -> bind m k w = (w', Raise e).
Proof. intros H. unfold bind. rewrite H. reflexivity. Qed.

(** One statement that returns: go on with the rest of the body. *)
Ltac step_ok H :=
  erewrite bind_ok by (unfold lift; rewrite H; reflexivity).

(** The first two statements of a view are [lookup_deployment]. *)
Lemma bind_lookup {B} req deployment_id (k : StaticDeployment -> M B) w :
  bind (get_query_dict deployment_id req)
       (fun query_dict =>
          bind (instance_of (get_or_none StaticDeploymentModel
                               (StaticDeployment_objects_get query_dict) true))
               k) w
  = bind (lookup_deployment req deployment_id) k w.
Proof.
  unfold lookup_deployment. rewrite bind_assoc. reflexivity.
Qed.

Lemma bind_lookup_found {B} req deployment_id (k : StaticDeployment -> M B) w d :
  lookup_deployment req deployment_id w = (w, Ok d) ->
  bind (get_query_dict deployment_id req)
       (fun query_dict =>
          bind (instance_of (get_or_none StaticDeploymentModel
                               (StaticDeployment_objects_get query_dict) true))
               k) w
  = k d w.
Proof.
  intros H. rewrite bind_lookup. unfold bind at 1. rewrite H. reflexivity.
Qed.

Lemma bind_lookup_raises {B} req deployment_id (k : StaticDeployment -> M B) w e :
  lookup_deployment req deployment_id w = (w, Raise e) ->
  bind (get_query_dict deployment_id req)
       (fun query_dict =>
          bind (instance_of (get_or_none StaticDeploymentModel
                               (StaticDeployment_objects_get query_dict) true))
               k) w
  = (w, Raise e).
Proof.
  intros H. rewrite bind_lookup. unfold bind at 1. rewrite H. reflexivity.
Qed.

Lemma get_query_dict_recognized deployment_id req w :
  recognized_field (lookup_field req) = true ->
  get_query_dict deployment_id req w = (w, Ok (lookup_field req, deployment_id)).
Proof.
  unfold get_query_dict, recognized_field, lookup_field. intros H.
  destruct (GET_lookupField req); rewrite H; reflexivity.
Qed.

Lemma get_query_dict_unrecognized deployment_id req w :
  recognized_field (lookup_field req) = false ->
  get_query_dict deployment_id req w
  = (w, Raise (BadInputException "The supplied `lookupField` was invalid")).
Proof.
  unfold get_query_dict, recognized_field, lookup_field. intros H.
  destruct (GET_lookupField req); rewrite H; reflexivity.
Qed.

(** The lookup reads the database and changes nothing. *)
Lemma lookup_deployment_pure req deployment_id w w' r :
  lookup_deployment req deployment_id w = (w', r) -> w' = w.
Proof.
  unfold lookup_deployment, bind, get_query_dict, instance_of, bind,
    get_or_none, StaticDeployment_objects_get, raise, ret.
  destruct (negb _); simpl.
  - intros [= <- _]. reflexivity.
  - destruct (select_deployments _ _ _) as [rows | e]; simpl.
    + destruct (get_one StaticDeploymentModel rows) as [a | []]; simpl;
        try destruct model; simpl; intros [= <- _]; reflexivity.
    + destruct e; try destruct model; simpl; intros [= <- _]; reflexivity.
Qed.

(** The lookup in terms of the rows that match. *)
Lemma lookup_deployment_rows req deployment_id w rows :
  recognized_field (lookup_field req) = true ->
  select_deployments (lookup_field req) deployment_id (tables (db w)) = Ok rows ->
  lookup_deployment req deployment_id w
  = (w, match rows with
        | [] => Raise NotFound
        | [d] => Ok d
        | _ :: _ :: _ => Raise (MultipleObjectsReturned StaticDeploymentModel)
        end).
Proof.
  intros Hf Hs. unfold lookup_deployment, bind.
  rewrite get_query_dict_recognized by exact Hf.
  unfold instance_of, bind, get_or_none, StaticDeployment_objects_get. simpl.
  rewrite Hs. destruct rows as [| d [| d' rest]]; reflexivity.
Qed.

Lemma filter_nonempty {A} (f : A -> bool) l x :
  In x l -> f x = true -> queryset_truthy (filter f l) = true.
Proof.
  intros Hin Hf.
  assert (Hx : In x (filter f l)) by (apply filter_In; split; assumption).
  destruct (filter f l); [destruct Hx | reflexivity].
Qed.

Lemma filter_none {A} (f : A -> bool) l :
  (forall x, In x l -> f x = false) -> filter f l = [].
Proof.
  induction l as [| a l IH]; intros H; simpl; [reflexivity |].
  rewrite (H a) by (left; reflexivity).
  apply IH. intros x Hx. apply H. right. exact Hx.
Qed.

Lemma filter_all {A} (f : A -> bool) l :
  (forall x, In x l -> f x = true) -> filter f l = l.
Proof.
  induction l as [| a l IH]; intros H; simpl; [reflexivity |].
  rewrite (H a) by (left; reflexivity).
  f_equal. apply IH. intros x Hx. apply H. right. exact Hx.
Qed.

Section Properties.

Variable env : Collaborators.

(** ** NewVersionUpload with a label that is taken *)

(** C4: when the deployment that the request resolves to already has a
    version with the given label, NewVersionUpload answers 400 with the
    uniqueness message (the view's conflict error) and the world is the one
    it started from: same rows, so the active version is still active and no
    version was added, and no call into the upload module, so the latest
    pointer was not moved. *)
Theorem existing_label_conflict req deployment_id version w d v :
  user_is_authenticated req = true ->
  lookup_deployment req deployment_id w = (w, Ok d) ->
  In v (versions (tables (db w))) ->
  dv_deployment v = sd_id d ->
  dv_version v = version ->
  DeploymentVersionView_post env req deployment_id version w
  = (w, HttpResponseBadRequest "The new version name must be unique.").
Proof.
  intros Hauth Hlookup Hin Hfk Hlabel.
  unfold DeploymentVersionView_post, with_caught_exceptions, with_login_required.
  rewrite Hauth, (bind_lookup_found _ _ _ _ _ Hlookup).
  unfold bind at 1, DeploymentVersion_filter_version.
  rewrite (filter_nonempty (has_label version) _ v).
  - reflexivity.
  - apply filter_In. split; [exact Hin |]. rewrite Hfk. apply Z.eqb_refl.
  - unfold has_label. rewrite Hlabel. apply String.eqb_refl.
Qed.

(** ** Lookup *)



(** ** A deployment without an active version *)

(** C10: for a deployment none of whose versions is active, the
    active-version search of [Deployment.get] raises StopIteration and the
    view answers 500; the active-version query of NewVersionUpload (with a
    label that is new, by an authenticated user) raises DoesNotExist and the
    view answers 500, leaving the world as it was.  The query gives an
    instance or raises, and an instance is true: the guard is always
    taken, and the transaction is the one without the guard. *)
Theorem no_active_version_is_server_error req deployment_id version w d :
  lookup_deployment req deployment_id w = (w, Ok d) ->
  active_versions d (tables (db w)) = [] ->
  (py_next (active_versions d (tables (db w))) w = (w, Raise StopIteration)
   /\ Deployment_get req deployment_id w = (w, server_error))
  /\ (user_is_authenticated req = true ->
      (forall v, In v (versions (tables (db w))) ->
                 dv_deployment v = sd_id d -> dv_version v <> version) ->
      DeploymentVersion_objects_get_active d w
      = (w, Raise (DoesNotExist DeploymentVersionModel))
      /\ DeploymentVersionView_post env req deployment_id version w
         = (w, server_error))
  /\ (forall d' w',
        match snd (DeploymentVersion_objects_get_active d' w') with
        | Ok old_version => instance_truthy old_version = true
        | Raise e => e = DoesNotExist DeploymentVersionModel
                     \/ e = MultipleObjectsReturned DeploymentVersionModel
        end)
  /\ new_version_transaction env req d version
     = (old_version <- DeploymentVersion_objects_get_active d ;;
        DeploymentVersion_save_existing (set_active false old_version) ;;;
        version_model <- DeploymentVersion_save version d true ;;
        file <- FILES_getitem_file req ;;
        upload env (handle_uploaded_static_archive_call
                      file (sd_subdomain d) version (Some false)) ;;;
        upload env (update_symlink_call (sd_name d) version) ;;;
        ret version_model).
Proof.
  intros Hlookup Hnone. split; [| split; [| split; [| reflexivity]]].
  - split.
    + rewrite Hnone. reflexivity.
    + unfold Deployment_get, with_caught_exceptions.
      rewrite (bind_lookup_found _ _ _ _ _ Hlookup).
      unfold bind at 1, DeploymentVersion_filter.
      unfold active_versions in Hnone. unfold bind at 1. rewrite Hnone.
      reflexivity.
  - intros Hauth Hnew.
    assert (Hget : DeploymentVersion_objects_get_active d w
                   = (w, Raise (DoesNotExist DeploymentVersionModel))).
    { unfold DeploymentVersion_objects_get_active.
      unfold active_versions in Hnone. rewrite Hnone. reflexivity. }
    split; [exact Hget |].
    unfold DeploymentVersionView_post, with_caught_exceptions,
      with_login_required.
    rewrite Hauth, (bind_lookup_found _ _ _ _ _ Hlookup).
    unfold bind at 1, DeploymentVersion_filter_version.
    rewrite filter_none.
    + simpl. unfold bind at 1, atomic, new_version_transaction.
      unfold bind at 1. rewrite Hget. reflexivity.
    + intros v Hv. apply filter_In in Hv. destruct Hv as [Hin Hfk].
      apply Z.eqb_eq in Hfk. unfold has_label.
      apply String.eqb_neq. apply Hnew; assumption.
  - intros d' w'. unfold DeploymentVersion_objects_get_active. simpl.
    destruct (filter dv_active _) as [| a [| b rest]]; simpl; auto.
Qed.

(** ** InitialUpload *)

Lemma is_failure_exception_response e :
  is_failure (exception_response e) = true.
Proof. destruct e; reflexivity. Qed.

Lemma except_IntegrityError_raise {A} (body : M A) w w' e :
  body w = (w', Raise e) ->
  except_IntegrityError body w = (w', Raise (after_except_IntegrityError e)).
Proof.
  intros H. unfold except_IntegrityError. rewrite H.
  destruct e; try reflexivity. simpl.
  destruct (str_in _ msg); reflexivity.
Qed.

Lemma except_IntegrityError_ok {A} (body : M A) w w' a :
  body w = (w', Ok a) -> except_IntegrityError body w = (w', Ok a).
Proof. intros H. unfold except_IntegrityError. rewrite H. reflexivity. Qed.

Lemma duplicate_entry_recognised value key :
  str_in "Duplicate entry" (duplicate_entry value key) = true.
Proof. reflexivity. Qed.

(** The transaction of [Deployments.post]: a taken name or subdomain stops
    it at the first insert; otherwise two inserts, then the extraction, and
    the rows go back when the extraction raises. *)
Lemma initial_upload_name_taken request w form :
  name_taken (form_name form) w = true ->
  atomic (initial_upload_transaction env request (form_name form)
            (form_subdomain form) (form_version form)) w
  = (w, Raise (IntegrityError (duplicate_entry (form_name form) "name"))).
Proof.
  unfold name_taken, initial_upload_transaction. intros Hn.
  unfold atomic, bind, StaticDeployment_save. simpl. rewrite Hn. reflexivity.
Qed.

Lemma initial_upload_subdomain_taken request w form :
  name_taken (form_name form) w = false ->
  subdomain_taken (form_subdomain form) w = true ->
  atomic (initial_upload_transaction env request (form_name form)
            (form_subdomain form) (form_version form)) w
  = (w, Raise (IntegrityError
                 (duplicate_entry (form_subdomain form) "subdomain"))).
Proof.
  unfold name_taken, subdomain_taken, initial_upload_transaction.
  intros Hn Hs.
  unfold atomic, bind, StaticDeployment_save. simpl. rewrite Hn, Hs.
  reflexivity.
Qed.

Lemma initial_upload_free request w form file :
  name_taken (form_name form) w = false ->
  subdomain_taken (form_subdomain form) w = false ->
  FILES_file request = Some file ->
  let d := new_deployment w form in
  let call := handle_uploaded_static_archive_call
                file (form_subdomain form) (form_version form) None in
  atomic (initial_upload_transaction env request (form_name form)
            (form_subdomain form) (form_version form)) w
  = match upload_outcome env (fs_calls w) call with
    | None =>
        (mkWorld (mkDB (mkTables
                          (deployments (tables (db w)) ++ [d])
                          (versions (tables (db w))
                             ++ [new_version w (sd_id d) (form_version form)]))
                       (next_deployment_id (db w) + 1)
                       (next_version_id (db w) + 1))
                 (fs_calls w ++ [call]),
         Ok d)
    | Some e =>
        (mkWorld (mkDB (tables (db w))
                       (next_deployment_id (db w) + 1)
                       (next_version_id (db w) + 1))
                 (fs_calls w ++ [call]),
         Raise e)
    end.
Proof.
  unfold name_taken, subdomain_taken, initial_upload_transaction.
  intros Hn Hs Hf. simpl.
  unfold atomic, bind, StaticDeployment_save, FILES_getitem_file, upload.
  simpl. rewrite Hn, Hs, Hf. simpl.
  destruct (upload_outcome env _ _); reflexivity.
Qed.

(** [Deployments.post] once the user, the form and the two validators are
    through. *)
Lemma Deployments_post_validated request w form :
  user_is_authenticated request = true ->
  get_validated_form env request = Ok form ->
  validate_deployment_name env (form_name form) = Ok tt ->
  validate_subdomain env (form_subdomain form) = Ok tt ->
  Deployments_post env request w
  = with_caught_exceptions (
      deployment_descriptor <-
        except_IntegrityError (atomic (
          initial_upload_transaction env request (form_name form)
            (form_subdomain form) (form_version form))) ;;
      ret (JsonResponse (CreatedJson (form_name form) (form_subdomain form)
                           (form_version form)
                           (get_url env deployment_descriptor)))) w.
Proof.
  intros Hauth Hform Hname Hsub.
  unfold Deployments_post, with_caught_exceptions, with_login_required.
  rewrite Hauth. step_ok Hform. step_ok Hname. step_ok Hsub. reflexivity.
Qed.

(** C3: when the extraction of the archive raises, InitialUpload answers
    with a failure and the rows of both tables are what they were before
    the request: neither the deployment row nor the version row stays.
    With both names free the extraction is the one call made, and the
    answer is the one of the exception it raised. *)
Theorem extraction_failure_rolls_back request w form file e :
  user_is_authenticated request = true ->
  get_validated_form env request = Ok form ->
  validate_deployment_name env (form_name form) = Ok tt ->
  validate_subdomain env (form_subdomain form) = Ok tt ->
  FILES_file request = Some file ->
  upload_outcome env (fs_calls w)
    (handle_uploaded_static_archive_call
       file (form_subdomain form) (form_version form) None) = Some e ->
  tables (db (fst (Deployments_post env request w))) = tables (db w)
  /\ is_failure (snd (Deployments_post env request w)) = true
  /\ (name_taken (form_name form) w = false ->
      subdomain_taken (form_subdomain form) w = false ->
      fs_calls (fst (Deployments_post env request w))
      = fs_calls w ++ [handle_uploaded_static_archive_call
                         file (form_subdomain form) (form_version form) None]
      /\ snd (Deployments_post env request w)
         = exception_response (after_except_IntegrityError e)).
Proof.
  intros Hauth Hform Hname Hsub Hfile Hfail.
  rewrite (Deployments_post_validated request w form Hauth Hform Hname Hsub).
  unfold with_caught_exceptions.
  destruct (name_taken (form_name form) w) eqn:En;
    [| destruct (subdomain_taken (form_subdomain form) w) eqn:Es].
  - erewrite bind_raise
      by (apply except_IntegrityError_raise, initial_upload_name_taken, En).
    simpl. repeat split; easy.
  - erewrite bind_raise
      by (apply except_IntegrityError_raise,
            initial_upload_subdomain_taken; assumption).
    simpl. repeat split; easy.
  - erewrite bind_raise.
    2:{ apply except_IntegrityError_raise.
        rewrite (initial_upload_free request w form file En Es Hfile).
        simpl. rewrite Hfail. reflexivity. }
    simpl. split; [reflexivity |]. split.
    + apply is_failure_exception_response.
    + intros _ _. split; reflexivity.
Qed.

Lemma exception_response_not_json e body :
  exception_response e <> JsonResponse body.
Proof. destruct e; discriminate. Qed.

(** An equation between the answer to an exception and a JSON answer. *)
Ltac not_json H :=
  injection H as _ H;
  first [discriminate H | now apply exception_response_not_json in H].

(** What a successful InitialUpload has done. *)
Lemma Deployments_post_success request w w' body :
  Deployments_post env request w = (w', JsonResponse body) ->
  exists form file,
    get_validated_form env request = Ok form
    /\ FILES_file request = Some file
    /\ name_taken (form_name form) w = false
    /\ subdomain_taken (form_subdomain form) w = false
    /\ w' = mkWorld
              (mkDB (mkTables
                       (deployments (tables (db w)) ++ [new_deployment w form])
                       (versions (tables (db w))
                          ++ [new_version w (next_deployment_id (db w))
                                (form_version form)]))
                    (next_deployment_id (db w) + 1)
                    (next_version_id (db w) + 1))
              (fs_calls w ++ [handle_uploaded_static_archive_call file
                                (form_subdomain form) (form_version form) None]).
Proof.
  intros H.
  unfold Deployments_post, with_caught_exceptions, with_login_required in H.
  destruct (user_is_authenticated request); [| discriminate H].
  destruct (get_validated_form env request) as [form | e] eqn:Hform.
  2:{ erewrite bind_raise in H by reflexivity.
      not_json H. }
  erewrite bind_ok in H by reflexivity.
  destruct (validate_deployment_name env (form_name form)) as [[] | e] eqn:Hn.
  2:{ erewrite bind_raise in H by reflexivity.
      not_json H. }
  erewrite bind_ok in H by reflexivity.
  destruct (validate_subdomain env (form_subdomain form)) as [[] | e] eqn:Hs.
  2:{ erewrite bind_raise in H by reflexivity.
      not_json H. }
  erewrite bind_ok in H by reflexivity.
  exists form.
  destruct (name_taken (form_name form) w) eqn:En.
  { erewrite bind_raise in H
      by (apply except_IntegrityError_raise, initial_upload_name_taken, En).
    not_json H. }
  destruct (subdomain_taken (form_subdomain form) w) eqn:Es.
  { erewrite bind_raise in H
      by (apply except_IntegrityError_raise,
            initial_upload_subdomain_taken; assumption).
    not_json H. }
  destruct (FILES_file request) as [file |] eqn:Hfile.
  2:{ erewrite bind_raise in H.
      2:{ apply except_IntegrityError_raise.
          unfold atomic, initial_upload_transaction, bind,
            StaticDeployment_save, FILES_getitem_file.
          unfold name_taken in En. unfold subdomain_taken in Es.
          simpl. rewrite En, Es, Hfile. simpl. reflexivity. }
      not_json H. }
  exists file.
  pose proof (initial_upload_free request w form file En Es Hfile) as Htx.
  simpl in Htx.
  destruct (upload_outcome env (fs_calls w) _) as [e |] eqn:Hup.
  { erewrite bind_raise in H
      by (apply except_IntegrityError_raise; exact Htx).
    not_json H. }
  erewrite bind_ok in H by (apply except_IntegrityError_ok; exact Htx).
  unfold ret in H. injection H as Hw _.
  repeat split; try reflexivity. symmetry. exact Hw.
Qed.

(** A create whose name or subdomain is taken. *)
Lemma create_with_taken_name request w form :
  user_is_authenticated request = true ->
  get_validated_form env request = Ok form ->
  validate_deployment_name env (form_name form) = Ok tt ->
  validate_subdomain env (form_subdomain form) = Ok tt ->
  name_taken (form_name form) w || subdomain_taken (form_subdomain form) w
  = true ->
  Deployments_post env request w
  = (w, HttpResponseBadRequest "`name` and `subdomain` must be unique!").
Proof.
  intros Hauth Hform Hname Hsub Htaken.
  rewrite (Deployments_post_validated request w form Hauth Hform Hname Hsub).
  unfold with_caught_exceptions.
  destruct (name_taken (form_name form) w) eqn:En.
  - erewrite bind_raise
      by (apply except_IntegrityError_raise, initial_upload_name_taken, En).
    reflexivity.
  - simpl in Htaken.
    erewrite bind_raise
      by (apply except_IntegrityError_raise,
            initial_upload_subdomain_taken; assumption).
    reflexivity.
Qed.

(** C5: a create that succeeded has put its deployment in the table, and
    in every world where that deployment is still in the table (the one
    right after the create among them) a create by a logged-in user whose
    form and names pass validation and whose name, or whose subdomain, is
    the one of that deployment, is answered 400 with the uniqueness message
    (the view's conflict error) and leaves the world as it found it: there
    is no new deployment. *)
Theorem second_create_conflicts first second w w1 body form1 form2 :
  Deployments_post env first w = (w1, JsonResponse body) ->
  get_validated_form env first = Ok form1 ->
  user_is_authenticated second = true ->
  get_validated_form env second = Ok form2 ->
  validate_deployment_name env (form_name form2) = Ok tt ->
  validate_subdomain env (form_subdomain form2) = Ok tt ->
  form_name form2 = form_name form1
    \/ form_subdomain form2 = form_subdomain form1 ->
  In (new_deployment w form1) (deployments (tables (db w1)))
  /\ (forall w2,
        In (new_deployment w form1) (deployments (tables (db w2))) ->
        Deployments_post env second w2
        = (w2, HttpResponseBadRequest
                 "`name` and `subdomain` must be unique!")).
Proof.
  intros Hfirst Hform1 Hauth Hform2 Hname Hsub Hsame.
  apply Deployments_post_success in Hfirst.
  destruct Hfirst as (form & file & Hform & _ & _ & _ & Hw1).
  rewrite Hform1 in Hform. injection Hform as <-.
  split.
  - subst w1. cbn. apply in_or_app. right. left. reflexivity.
  - intros w2 Hin.
    apply (create_with_taken_name second w2 form2 Hauth Hform2 Hname Hsub).
    apply orb_true_iff. unfold name_taken, subdomain_taken.
    destruct Hsame as [Hn | Hs]; [left | right]; apply existsb_exists;
      exists (new_deployment w form1); (split; [exact Hin |]); cbn.
    + rewrite Hn. apply String.eqb_refl.
    + rewrite Hs. apply String.eqb_refl.
Qed.

(** ** Round trip *)

Lemma py_int_py_str n : py_int (py_str n) = Some n.
Proof.
  unfold py_int, py_str. rewrite NilZero.isi.
  - simpl. f_equal. apply DecimalZ.of_to.
  - destruct n; simpl; try discriminate.
    intros [= H]. now apply DecimalPos.Unsigned.to_uint_nonnil in H.
  - destruct n; simpl; try discriminate.
    intros [= H]. now apply DecimalPos.Unsigned.to_uint_nonnil in H.
Qed.

Lemma db_consistent_spec d :
  db_consistent d = true ->
  (forall r, In r (deployments (tables d)) -> sd_id r < next_deployment_id d)
  /\ (forall v, In v (versions (tables d)) ->
                dv_deployment v < next_deployment_id d)
  /\ (forall v, In v (versions (tables d)) -> dv_id v < next_version_id d)
  /\ distinct (map sd_id (deployments (tables d))) = true
  /\ distinct (map dv_id (versions (tables d))) = true.
Proof.
  unfold db_consistent. intros H.
  repeat (apply andb_true_iff in H; destruct H as [H ?]).
  repeat split; try assumption.
  - intros r Hr. apply Z.ltb_lt. revert r Hr. now apply forallb_forall.
  - intros v Hv. apply Z.ltb_lt. revert v Hv. now apply forallb_forall.
  - intros v Hv. apply Z.ltb_lt. revert v Hv. now apply forallb_forall.
Qed.

Lemma existsb_false_filter {A} (f : A -> bool) l :
  existsb f l = false -> filter f l = [].
Proof.
  intros H. apply filter_none. intros x Hx.
  destruct (f x) eqn:E; [| reflexivity].
  assert (existsb f l = true) by (apply existsb_exists; eauto). congruence.
Qed.

(** [Deployment.get] once the deployment is found. *)
Lemma Deployment_get_found req deployment_id w d :
  lookup_deployment req deployment_id w = (w, Ok d) ->
  Deployment_get req deployment_id w
  = (w, match active_versions d (tables (db w)) with
        | [] => server_error
        | active_version :: _ =>
            JsonResponse
              (DeploymentJson d
                 (map dv_version
                    (deployment_versions (sd_id d) (versions (tables (db w)))))
                 (dv_version active_version))
        end).
Proof.
  intros Hlookup. unfold Deployment_get, with_caught_exceptions.
  rewrite (bind_lookup_found _ _ _ _ _ Hlookup).
  unfold bind at 1, DeploymentVersion_filter. unfold bind at 1.
  unfold active_versions.
  destruct (filter dv_active _); reflexivity.
Qed.

(** C6: after an InitialUpload that succeeded from a consistent database,
    reading the deployment by its name, by its subdomain and by its id
    (under the default lookup field too) gives one and the same answer: the
    record of the new deployment, the version list [[v1]] and the active
    version v1. *)
Theorem initial_upload_round_trip request w w' body form :
  db_consistent (db w) = true ->
  Deployments_post env request w = (w', JsonResponse body) ->
  get_validated_form env request = Ok form ->
  let d := new_deployment w form in
  let answer :=
    (w', JsonResponse (DeploymentJson d [form_version form] (form_version form)))
  in
  (forall req, lookup_field req = "name" ->
               Deployment_get req (form_name form) w' = answer)
  /\ (forall req, lookup_field req = "subdomain" ->
                  Deployment_get req (form_subdomain form) w' = answer)
  /\ (forall req, lookup_field req = "id" ->
                  Deployment_get req (py_str (sd_id d)) w' = answer).
Proof.
  intros Hdb Hpost Hform d answer.
  apply Deployments_post_success in Hpost.
  destruct Hpost as (form' & file & Hform' & _ & Hn & Hs & Hw').
  rewrite Hform in Hform'. injection Hform' as <-.
  apply db_consistent_spec in Hdb.
  destruct Hdb as (Hids & Hfks & _).
  assert (Hversions :
            deployment_versions (sd_id d) (versions (tables (db w')))
            = [new_version w (sd_id d) (form_version form)]).
  { subst w'. simpl. unfold deployment_versions. rewrite filter_app.
    rewrite filter_none.
    - simpl. rewrite Z.eqb_refl. reflexivity.
    - intros v Hv. apply Z.eqb_neq. specialize (Hfks v Hv). lia. }
  assert (Hget : forall req deployment_id,
             lookup_deployment req deployment_id w' = (w', Ok d) ->
             Deployment_get req deployment_id w' = answer).
  { intros req deployment_id Hl.
    rewrite (Deployment_get_found req deployment_id w' d Hl).
    unfold active_versions. rewrite Hversions. reflexivity. }
  repeat split; intros req Hfield; apply Hget.
  - rewrite (lookup_deployment_rows req _ w' [d]); [reflexivity | |].
    + rewrite Hfield. reflexivity.
    + rewrite Hfield. subst w'. unfold select_deployments. simpl.
      rewrite filter_app, existsb_false_filter by exact Hn.
      simpl. rewrite String.eqb_refl. reflexivity.
  - rewrite (lookup_deployment_rows req _ w' [d]); [reflexivity | |].
    + rewrite Hfield. reflexivity.
    + rewrite Hfield. subst w'. unfold select_deployments. simpl.
      rewrite filter_app, existsb_false_filter by exact Hs.
      simpl. rewrite String.eqb_refl. reflexivity.
  - rewrite (lookup_deployment_rows req _ w' [d]); [reflexivity | |].
    + rewrite Hfield. reflexivity.
    + rewrite Hfield. subst w'. unfold select_deployments.
      replace ("id" =? "id")%string with true by reflexivity.
      rewrite py_int_py_str. simpl.
      rewrite filter_app, filter_none.
      * simpl. rewrite Z.eqb_refl. reflexivity.
      * intros r Hr. apply Z.eqb_neq. specialize (Hids r Hr). lia.
Qed.

(** ** NewVersionUpload *)

Lemma label_is_new d version vs :
  (forall v, In v vs -> dv_deployment v = sd_id d -> dv_version v <> version) ->
  filter (has_label version) (deployment_versions (sd_id d) vs) = [].
Proof.
  intros Hnew. apply filter_none. intros v Hv.
  apply filter_In in Hv. destruct Hv as [Hin Hfk]. apply Z.eqb_eq in Hfk.
  apply String.eqb_neq. now apply Hnew.
Qed.

(** NewVersionUpload once the deployment is found and the label is new. *)
Lemma DeploymentVersionView_post_new_label req deployment_id version w d :
  user_is_authenticated req = true ->
  lookup_deployment req deployment_id w = (w, Ok d) ->
  (forall v, In v (versions (tables (db w))) ->
             dv_deployment v = sd_id d -> dv_version v <> version) ->
  DeploymentVersionView_post env req deployment_id version w
  = with_caught_exceptions (
      version_model <- atomic (new_version_transaction env req d version) ;;
      ret (JsonResponse (VersionJson version_model))) w.
Proof.
  intros Hauth Hlookup Hnew.
  unfold DeploymentVersionView_post, with_caught_exceptions, with_login_required.
  rewrite Hauth, (bind_lookup_found _ _ _ _ _ Hlookup).
  unfold bind at 1, DeploymentVersion_filter_version.
  rewrite (label_is_new d version _ Hnew). reflexivity.
Qed.

(** The transaction of NewVersionUpload on a deployment with exactly one
    active version, step by step: the old version is written back inactive,
    the new one is inserted active, the archive is extracted, the symlink
    is moved; an exception from either call takes the rows back. *)
Lemma new_version_transaction_steps req d version w old_version file :
  active_versions d (tables (db w)) = [old_version] ->
  FILES_file req = Some file ->
  let extract := handle_uploaded_static_archive_call
                   file (sd_subdomain d) version (Some false) in
  let symlink := update_symlink_call (sd_name d) version in
  let version_model := new_version w (sd_id d) version in
  let rolled_back calls :=
    mkWorld (mkDB (tables (db w)) (next_deployment_id (db w))
                  (next_version_id (db w) + 1)) calls in
  atomic (new_version_transaction env req d version) w
  = match upload_outcome env (fs_calls w) extract with
    | Some e => (rolled_back (fs_calls w ++ [extract]), Raise e)
    | None =>
        match upload_outcome env (fs_calls w ++ [extract]) symlink with
        | Some e =>
            (rolled_back ((fs_calls w ++ [extract]) ++ [symlink]), Raise e)
        | None =>
            (mkWorld
               (mkDB (mkTables
                        (deployments (tables (db w)))
                        (overwrite_version (set_active false old_version)
                           (versions (tables (db w))) ++ [version_model]))
                     (next_deployment_id (db w))
                     (next_version_id (db w) + 1))
               ((fs_calls w ++ [extract]) ++ [symlink]),
             Ok version_model)
        end
    end.
Proof.
  intros Hactive Hfile. simpl.
  unfold atomic, new_version_transaction, bind, serialize,
    DeploymentVersion_objects_get_active, FILES_getitem_file, upload.
  unfold active_versions in Hactive. rewrite Hactive, Hfile. cbn.
  destruct (upload_outcome env (fs_calls w) _); cbn; [reflexivity |].
  destruct (upload_outcome env (fs_calls w ++ _) _); reflexivity.
Qed.

(** C2 as amended: in NewVersionUpload the symlink update is the last call,
    made after the extraction and inside the transaction that deactivated
    the old version and inserted the new one; when it raises, the view
    answers with the failure of that exception and the rows are the ones
    from before the request: the old version is still the active one and
    the new version is not in the table. *)
Theorem symlink_failure_rolls_back
  req deployment_id version w d old_version file e :
  user_is_authenticated req = true ->
  lookup_deployment req deployment_id w = (w, Ok d) ->
  (forall v, In v (versions (tables (db w))) ->
             dv_deployment v = sd_id d -> dv_version v <> version) ->
  active_versions d (tables (db w)) = [old_version] ->
  FILES_file req = Some file ->
  let extract := handle_uploaded_static_archive_call
                   file (sd_subdomain d) version (Some false) in
  let symlink := update_symlink_call (sd_name d) version in
  upload_outcome env (fs_calls w) extract = None ->
  upload_outcome env (fs_calls w ++ [extract]) symlink = Some e ->
  DeploymentVersionView_post env req deployment_id version w
  = (mkWorld (mkDB (tables (db w)) (next_deployment_id (db w))
                   (next_version_id (db w) + 1))
             ((fs_calls w ++ [extract]) ++ [symlink]),
     exception_response e).
Proof.
  intros Hauth Hlookup Hnew Hactive Hfile extract symlink Hextract Hsymlink.
  rewrite (DeploymentVersionView_post_new_label _ _ _ _ d Hauth Hlookup Hnew).
  unfold with_caught_exceptions.
  erewrite bind_raise; [reflexivity |].
  rewrite (new_version_transaction_steps req d version w old_version file
             Hactive Hfile).
  simpl. fold extract. rewrite Hextract. fold symlink. rewrite Hsymlink.
  reflexivity.
Qed.

(** X23: a NewVersionUpload by a logged-in user with a new label, on a
    deployment with exactly one active version, with the file there and
    both calls returning, writes the old version back inactive, inserts the
    new version active, extracts under the deployment's subdomain with
    [init=False], then moves the symlink under the deployment's name, and
    answers with the new version row. *)
Lemma new_version_upload_commits
  req deployment_id version w d old_version file :
  user_is_authenticated req = true ->
  lookup_deployment req deployment_id w = (w, Ok d) ->
  (forall v, In v (versions (tables (db w))) ->
             dv_deployment v = sd_id d -> dv_version v <> version) ->
  active_versions d (tables (db w)) = [old_version] ->
  FILES_file req = Some file ->
  let extract := handle_uploaded_static_archive_call
                   file (sd_subdomain d) version (Some false) in
  let symlink := update_symlink_call (sd_name d) version in
  upload_outcome env (fs_calls w) extract = None ->
  upload_outcome env (fs_calls w ++ [extract]) symlink = None ->
  DeploymentVersionView_post env req deployment_id version w
  = (mkWorld
       (mkDB (mkTables
                (deployments (tables (db w)))
                (overwrite_version (set_active false old_version)
                   (versions (tables (db w)))
                   ++ [new_version w (sd_id d) version]))
             (next_deployment_id (db w))
             (next_version_id (db w) + 1))
       ((fs_calls w ++ [extract]) ++ [symlink]),
     JsonResponse (VersionJson (new_version w (sd_id d) version))).
Proof.
  intros Hauth Hlookup Hnew Hactive Hfile extract symlink Hextract Hsymlink.
  rewrite (DeploymentVersionView_post_new_label _ _ _ _ d Hauth Hlookup Hnew).
  unfold with_caught_exceptions.
  erewrite bind_ok; [reflexivity |].
  rewrite (new_version_transaction_steps req d version w old_version file
             Hactive Hfile).
  simpl. fold extract. rewrite Hextract. fold symlink. rewrite Hsymlink.
  reflexivity.
Qed.

(** ** DeleteVersion and DeleteDeployment *)

Lemma select_deployments_cases field value t :
  (exists f, select_deployments field value t
             = Ok (filter f (deployments t)))
  \/ (exists msg, select_deployments field value t = Raise (ValueError msg)).
Proof.
  unfold select_deployments.
  destruct (field =? "id")%string.
  - destruct (py_int value); [left | right]; eauto.
  - destruct (field =? "name")%string; [left; eauto |].
    destruct (field =? "subdomain")%string; [left | right]; eauto.
Qed.

(** A deployment that the lookup returns is a row of the table. *)
Lemma lookup_deployment_in req deployment_id w w' d :
  lookup_deployment req deployment_id w = (w', Ok d) ->
  In d (deployments (tables (db w))).
Proof.
  unfold lookup_deployment, bind, get_query_dict, instance_of, bind,
    get_or_none, StaticDeployment_objects_get, raise, ret.
  destruct (negb _); simpl; [discriminate |].
  destruct (select_deployments_cases
              match GET_lookupField req with Some f => f | None => "id" end
              deployment_id (tables (db w))) as [[f ->] | [msg ->]];
    [| discriminate].
  destruct (filter f _) as [| x [| y rest]] eqn:Ef; simpl; try discriminate.
  intros [= _ <-].
  assert (Hin : In x (filter f (deployments (tables (db w)))))
    by (rewrite Ef; left; reflexivity).
  apply filter_In in Hin. tauto.
Qed.

(** DeleteVersion once the user is logged in and the deployment is found:
    the rows with the label go; when versions of the deployment are left the
    version's directory is deleted, otherwise the deployment row goes and
    the deployment's directory is deleted; an exception from the upload
    module takes the rows back. *)
Lemma DeploymentVersionView_delete_steps req deployment_id version w d :
  user_is_authenticated req = true ->
  lookup_deployment req deployment_id w = (w, Ok d) ->
  let kept := without_label (sd_id d) version (versions (tables (db w))) in
  let call :=
    if queryset_truthy (deployment_versions (sd_id d) kept)
    then delete_hosted_version_call (sd_name d) version
    else delete_hosted_deployment_call (ByInstance d) in
  DeploymentVersionView_delete env req deployment_id version w
  = match upload_outcome env (fs_calls w) call with
    | Some e => (mkWorld (db w) (fs_calls w ++ [call]), exception_response e)
    | None =>
        (mkWorld
           (mkDB (if queryset_truthy (deployment_versions (sd_id d) kept)
                  then mkTables (deployments (tables (db w))) kept
                  else without_deployment (sd_id d)
                         (mkTables (deployments (tables (db w))) kept))
                 (next_deployment_id (db w)) (next_version_id (db w)))
           (fs_calls w ++ [call]),
         JsonResponse SuccessJson)
    end.
Proof.
  intros Hauth Hlookup kept call.
  unfold DeploymentVersionView_delete, with_caught_exceptions,
    with_login_required, with_default_success.
  rewrite Hauth. unfold bind at 1, atomic.
  rewrite (bind_lookup_found _ _ _ _ _ Hlookup).
  unfold bind, DeploymentVersion_filter_version_delete,
    DeploymentVersion_filter, StaticDeployment_delete, upload, serialize, ret.
  cbn -[deployment_versions without_label without_deployment].
  fold kept. subst call.
  destruct (queryset_truthy (deployment_versions (sd_id d) kept));
    cbn -[deployment_versions without_label without_deployment];
    destruct (upload_outcome env (fs_calls w) _); reflexivity.
Qed.

Lemma without_label_versions d version vs :
  deployment_versions d (without_label d version vs)
  = filter (fun v => negb (has_label version v)) (deployment_versions d vs).
Proof.
  unfold deployment_versions, without_label, has_label.
  induction vs as [| v vs IH]; simpl; [reflexivity |].
  destruct (dv_deployment v =? d) eqn:Efk; simpl.
  - destruct (dv_version v =? version)%string; simpl.
    + exact IH.
    + rewrite Efk. simpl. f_equal. exact IH.
  - rewrite Efk. exact IH.
Qed.

Lemma without_deployment_label d version t :
  without_deployment d
    (mkTables (deployments t) (without_label d version (versions t)))
  = without_deployment d t.
Proof.
  unfold without_deployment, without_label. simpl. f_equal.
  induction (versions t) as [| v vs IH]; simpl; [reflexivity |].
  destruct (dv_deployment v =? d) eqn:Efk; simpl.
  - destruct (dv_version v =? version)%string; simpl;
      [| rewrite Efk; simpl]; exact IH.
  - rewrite Efk. simpl. f_equal. exact IH.
Qed.

(** DeleteVersion of a label while another label of the deployment stays. *)
Lemma delete_version_others_remain req deployment_id version w d other :
  user_is_authenticated req = true ->
  lookup_deployment req deployment_id w = (w, Ok d) ->
  In other (versions (tables (db w))) ->
  dv_deployment other = sd_id d ->
  dv_version other <> version ->
  upload_outcome env (fs_calls w)
    (delete_hosted_version_call (sd_name d) version) = None ->
  DeploymentVersionView_delete env req deployment_id version w
  = (mkWorld (mkDB (mkTables
                      (deployments (tables (db w)))
                      (without_label (sd_id d) version
                         (versions (tables (db w)))))
                   (next_deployment_id (db w)) (next_version_id (db w)))
             (fs_calls w ++ [delete_hosted_version_call (sd_name d) version]),
     JsonResponse SuccessJson)
  /\ In d (deployments (tables (db w))).
Proof.
  intros Hauth Hlookup Hin Hfk Hother Hcall.
  split; [| exact (lookup_deployment_in _ _ _ _ _ Hlookup)].
  rewrite (DeploymentVersionView_delete_steps _ _ _ _ d Hauth Hlookup).
  cbv zeta. rewrite without_label_versions.
  rewrite (filter_nonempty _ _ other).
  - rewrite Hcall. reflexivity.
  - apply filter_In. split; [exact Hin |]. rewrite Hfk. apply Z.eqb_refl.
  - unfold has_label. apply negb_true_iff, String.eqb_neq. exact Hother.
Qed.




(** ** The single active version *)

Lemma filter_comm {A} (f g : A -> bool) l :
  filter f (filter g l) = filter g (filter f l).
Proof.
  induction l as [| a l IH]; simpl; [reflexivity |].
  destruct (f a) eqn:Ef, (g a) eqn:Eg; simpl;
    rewrite ?Ef, ?Eg; rewrite IH; reflexivity.
Qed.

(** C1, where the code departs from it: DeleteVersion of the label of the
    one active version, while the deployment has a version with another
    label, answers with the success message and leaves the deployment in the
    table with no active version at all. *)
Theorem delete_active_version_leaves_none_active
  req deployment_id version w d active_version other :
  user_is_authenticated req = true ->
  lookup_deployment req deployment_id w = (w, Ok d) ->
  active_versions d (tables (db w)) = [active_version] ->
  dv_version active_version = version ->
  In other (versions (tables (db w))) ->
  dv_deployment other = sd_id d ->
  dv_version other <> version ->
  upload_outcome env (fs_calls w)
    (delete_hosted_version_call (sd_name d) version) = None ->
  let w' := fst (DeploymentVersionView_delete env req deployment_id version w) in
  snd (DeploymentVersionView_delete env req deployment_id version w)
  = JsonResponse SuccessJson
  /\ In d (deployments (tables (db w')))
  /\ active_versions d (tables (db w')) = [].
Proof.
  intros Hauth Hlookup Hactive Hlabel Hin Hfk Hother Hcall.
  destruct (delete_version_others_remain req deployment_id version w d other
              Hauth Hlookup Hin Hfk Hother Hcall) as [-> Hd].
  simpl. split; [reflexivity |]. split; [exact Hd |].
  unfold active_versions in *. simpl.
  rewrite without_label_versions, filter_comm, Hactive. simpl.
  unfold has_label. rewrite Hlabel, String.eqb_refl. reflexivity.
Qed.

(** ** What each lifecycle request does to the rows *)

Lemma rows_unchanged_refl d : rows_unchanged d d.
Proof. unfold rows_unchanged. repeat split; lia. Qed.

(** The world after [Deployments.post] is the one it started in, or the one
    its transaction left. *)
Lemma Deployments_post_world request w :
  fst (Deployments_post env request w) = w
  \/ (exists form,
        fst (Deployments_post env request w)
        = fst (atomic (initial_upload_transaction env request (form_name form)
                         (form_subdomain form) (form_version form)) w)).
Proof.
  unfold Deployments_post, with_caught_exceptions, with_login_required.
  destruct (user_is_authenticated request); [| left; reflexivity].
  destruct (get_validated_form env request) as [form | e].
  2:{ left. erewrite bind_raise by reflexivity. reflexivity. }
  erewrite bind_ok by reflexivity.
  destruct (validate_deployment_name env (form_name form)) as [[] | e].
  2:{ left. erewrite bind_raise by reflexivity. reflexivity. }
  erewrite bind_ok by reflexivity.
  destruct (validate_subdomain env (form_subdomain form)) as [[] | e].
  2:{ left. erewrite bind_raise by reflexivity. reflexivity. }
  erewrite bind_ok by reflexivity.
  right. exists form.
  unfold bind, except_IntegrityError.
  destruct (atomic _ w) as [w1 [a | e]]; [reflexivity |].
  destruct e; try reflexivity. destruct (str_in _ msg); reflexivity.
Qed.

(** InitialUpload leaves the rows alone or adds one deployment with its one
    active version. *)
Lemma Deployments_post_rows request w :
  let w' := fst (Deployments_post env request w) in
  rows_unchanged (db w) (db w')
  \/ (exists form,
        name_taken (form_name form) w = false
        /\ subdomain_taken (form_subdomain form) w = false
        /\ db w'
           = mkDB (mkTables
                     (deployments (tables (db w)) ++ [new_deployment w form])
                     (versions (tables (db w))
                        ++ [new_version w (next_deployment_id (db w))
                              (form_version form)]))
                  (next_deployment_id (db w) + 1)
                  (next_version_id (db w) + 1)).
Proof.
  simpl.
  destruct (Deployments_post_world request w) as [-> | [form ->]];
    [left; apply rows_unchanged_refl |].
  destruct (name_taken (form_name form) w) eqn:En.
  { rewrite initial_upload_name_taken by exact En.
    left. apply rows_unchanged_refl. }
  destruct (subdomain_taken (form_subdomain form) w) eqn:Es.
  { rewrite initial_upload_subdomain_taken by assumption.
    left. apply rows_unchanged_refl. }
  destruct (FILES_file request) as [file |] eqn:Hfile.
  - rewrite (initial_upload_free request w form file En Es Hfile). cbv zeta.
    destruct (upload_outcome env _ _).
    + left. unfold rows_unchanged. cbn. repeat split; lia.
    + right. exists form. repeat split; assumption.
  - left. unfold atomic, initial_upload_transaction, bind,
      StaticDeployment_save, FILES_getitem_file.
    unfold name_taken in En. unfold subdomain_taken in Es.
    cbn. rewrite En, Es, Hfile. unfold rows_unchanged. cbn.
    repeat split; lia.
Qed.

(** NewVersionUpload leaves the rows alone or swaps the active version of
    one deployment for a new row. *)
Lemma DeploymentVersionView_post_rows req deployment_id version w :
  let w' := fst (DeploymentVersionView_post env req deployment_id version w) in
  rows_unchanged (db w) (db w')
  \/ (exists d old_version,
        In d (deployments (tables (db w)))
        /\ active_versions d (tables (db w)) = [old_version]
        /\ filter (has_label version)
             (deployment_versions (sd_id d) (versions (tables (db w)))) = []
        /\ db w'
           = mkDB (mkTables
                     (deployments (tables (db w)))
                     (overwrite_version (set_active false old_version)
                        (versions (tables (db w)))
                        ++ [new_version w (sd_id d) version]))
                  (next_deployment_id (db w))
                  (next_version_id (db w) + 1)).
Proof.
  simpl.
  destruct (DeploymentVersionView_post env req deployment_id version w)
    as [w' response] eqn:Hpost.
  simpl. revert Hpost.
  unfold DeploymentVersionView_post, with_caught_exceptions, with_login_required.
  destruct (user_is_authenticated req);
    [| intros [= <- _]; left; apply rows_unchanged_refl].
  destruct (lookup_deployment req deployment_id w) as [w1 [d | e]] eqn:Hl;
    pose proof (lookup_deployment_pure _ _ _ _ _ Hl) as ->.
  2:{ rewrite (bind_lookup_raises _ _ _ _ _ Hl).
      intros [= <- _]. left. apply rows_unchanged_refl. }
  rewrite (bind_lookup_found _ _ _ _ _ Hl).
  unfold bind at 1, DeploymentVersion_filter_version.
  destruct (filter (has_label version) _) eqn:Hnew; cbn;
    [| intros [= <- _]; left; apply rows_unchanged_refl].
  destruct (active_versions d (tables (db w))) as [| old [| x rest]] eqn:Hact.
  - unfold bind, atomic, new_version_transaction, bind,
      DeploymentVersion_objects_get_active.
    unfold active_versions in Hact. rewrite Hact. cbn.
    intros [= <- _]. left. apply rows_unchanged_refl.
  - destruct (FILES_file req) as [file |] eqn:Hfile.
    + unfold bind at 1.
      rewrite (new_version_transaction_steps req d version w old file Hact
                 Hfile).
      cbv zeta.
      destruct (upload_outcome env (fs_calls w) _);
        [intros [= <- _]; left; unfold rows_unchanged; cbn;
         repeat split; lia |].
      destruct (upload_outcome env (fs_calls w ++ _) _);
        [intros [= <- _]; left; unfold rows_unchanged; cbn;
         repeat split; lia |].
      intros [= <- _]. right. exists d, old. cbn.
      split; [exact (lookup_deployment_in _ _ _ _ _ Hl) |].
      split; [exact Hact |]. split; [exact Hnew | reflexivity].
    + unfold bind, atomic, new_version_transaction, bind,
        DeploymentVersion_objects_get_active, FILES_getitem_file.
      unfold active_versions in Hact. rewrite Hact, Hfile. cbn.
      intros [= <- _]. left. unfold rows_unchanged. cbn. repeat split; lia.
  - unfold bind, atomic, new_version_transaction, bind,
      DeploymentVersion_objects_get_active.
    unfold active_versions in Hact. rewrite Hact. cbn.
    intros [= <- _]. left. apply rows_unchanged_refl.
Qed.

(** DeleteVersion leaves the rows alone, or removes the rows of one
    deployment with the label, and the deployment too when it has no
    version left. *)
Lemma DeploymentVersionView_delete_rows req deployment_id version w :
  let w' := fst (DeploymentVersionView_delete env req deployment_id version w) in
  rows_unchanged (db w) (db w')
  \/ (exists d,
        lookup_deployment req deployment_id w = (w, Ok d)
        /\ In d (deployments (tables (db w)))
        /\ let kept :=
             without_label (sd_id d) version (versions (tables (db w))) in
           db w'
           = mkDB (if queryset_truthy (deployment_versions (sd_id d) kept)
                   then mkTables (deployments (tables (db w))) kept
                   else without_deployment (sd_id d) (tables (db w)))
                  (next_deployment_id (db w)) (next_version_id (db w))).
Proof.
  simpl.
  destruct (user_is_authenticated req) eqn:Hauth.
  2:{ unfold DeploymentVersionView_delete, with_caught_exceptions,
        with_login_required. rewrite Hauth.
      left. apply rows_unchanged_refl. }
  destruct (lookup_deployment req deployment_id w) as [w1 [d | e]] eqn:Hl;
    pose proof (lookup_deployment_pure _ _ _ _ _ Hl) as ->.
  - rewrite (DeploymentVersionView_delete_steps _ _ _ _ d Hauth Hl).
    cbv zeta.
    destruct (upload_outcome env (fs_calls w) _);
      [left; apply rows_unchanged_refl |].
    right. exists d. split; [reflexivity |].
    split; [exact (lookup_deployment_in _ _ _ _ _ Hl) |].
    cbn. destruct (queryset_truthy _); [reflexivity |].
    rewrite without_deployment_label. reflexivity.
  - left. unfold DeploymentVersionView_delete, with_caught_exceptions,
      with_login_required, with_default_success.
    rewrite Hauth. unfold bind at 1, atomic.
    rewrite (bind_lookup_raises _ _ _ _ _ Hl). apply rows_unchanged_refl.
Qed.

(** DeleteDeployment once the user is logged in and the deployment is
    found. *)
Lemma Deployment_delete_steps req deployment_id w d :
  user_is_authenticated req = true ->
  lookup_deployment req deployment_id w = (w, Ok d) ->
  let call := delete_hosted_deployment_call (ByName (sd_name d)) in
  Deployment_delete env req deployment_id w
  = match upload_outcome env (fs_calls w) call with
    | Some e => (mkWorld (db w) (fs_calls w ++ [call]), exception_response e)
    | None =>
        (mkWorld (mkDB (without_deployment (sd_id d) (tables (db w)))
                       (next_deployment_id (db w)) (next_version_id (db w)))
                 (fs_calls w ++ [call]),
         JsonResponse SuccessJson)
    end.
Proof.
  intros Hauth Hlookup call.
  unfold Deployment_delete, with_caught_exceptions, with_login_required,
    with_default_success.
  rewrite Hauth. unfold bind at 1, atomic.
  rewrite (bind_lookup_found _ _ _ _ _ Hlookup).
  unfold bind, StaticDeployment_delete, upload, serialize, ret.
  cbn -[without_deployment]. subst call.
  destruct (upload_outcome env (fs_calls w) _); reflexivity.
Qed.

(** DeleteDeployment leaves the rows alone or removes one deployment with
    all its versions. *)
Lemma Deployment_delete_rows req deployment_id w :
  let w' := fst (Deployment_delete env req deployment_id w) in
  rows_unchanged (db w) (db w')
  \/ (exists d,
        In d (deployments (tables (db w)))
        /\ db w'
           = mkDB (without_deployment (sd_id d) (tables (db w)))
                  (next_deployment_id (db w)) (next_version_id (db w))).
Proof.
  simpl.
  destruct (user_is_authenticated req) eqn:Hauth.
  2:{ unfold Deployment_delete, with_caught_exceptions, with_login_required.
      rewrite Hauth. left. apply rows_unchanged_refl. }
  destruct (lookup_deployment req deployment_id w) as [w1 [d | e]] eqn:Hl;
    pose proof (lookup_deployment_pure _ _ _ _ _ Hl) as ->.
  - rewrite (Deployment_delete_steps _ _ _ d Hauth Hl). cbv zeta.
    destruct (upload_outcome env (fs_calls w) _);
      [left; apply rows_unchanged_refl |].
    right. exists d. split; [exact (lookup_deployment_in _ _ _ _ _ Hl) |].
    reflexivity.
  - left. unfold Deployment_delete, with_caught_exceptions,
      with_login_required, with_default_success.
    rewrite Hauth. unfold bind at 1, atomic.
    rewrite (bind_lookup_raises _ _ _ _ _ Hl). apply rows_unchanged_refl.
Qed.

(** ** Consistency of the database is kept *)

Lemma distinct_snoc l x :
  distinct l = true -> (forall y, In y l -> y < x) -> distinct (l ++ [x]) = true.
Proof.
  induction l as [| a l IH]; simpl; intros Hd Hlt; [reflexivity |].
  apply andb_true_iff in Hd. destruct Hd as [Ha Hl].
  apply andb_true_iff. split.
  - rewrite existsb_app, negb_orb. simpl.
    rewrite Ha. simpl. rewrite orb_false_r.
    apply negb_true_iff, Z.eqb_neq.
    specialize (Hlt a (or_introl eq_refl)). lia.
  - apply IH; [exact Hl |]. intros y Hy. apply Hlt. right. exact Hy.
Qed.

Lemma distinct_filter {A} (g : A -> Z) (f : A -> bool) l :
  distinct (map g l) = true -> distinct (map g (filter f l)) = true.
Proof.
  induction l as [| a l IH]; simpl; intros Hd; [reflexivity |].
  apply andb_true_iff in Hd. destruct Hd as [Ha Hl].
  destruct (f a); simpl; [| now apply IH].
  apply andb_true_iff. split; [| now apply IH].
  apply negb_true_iff. apply negb_true_iff in Ha.
  destruct (existsb (Z.eqb (g a)) (map g (filter f l))) eqn:E; [| reflexivity].
  apply existsb_exists in E. destruct E as (y & Hy & Hey).
  apply in_map_iff in Hy. destruct Hy as (b & <- & Hb).
  apply filter_In in Hb. destruct Hb as [Hb _].
  assert (existsb (Z.eqb (g a)) (map g l) = true)
    by (apply existsb_exists; exists (g b); split;
        [now apply in_map | exact Hey]).
  congruence.
Qed.

(** Rows with distinct keys are equal when their keys are. *)
Lemma distinct_inj {A} (g : A -> Z) l a b :
  distinct (map g l) = true -> In a l -> In b l -> g a = g b -> a = b.
Proof.
  induction l as [| c l IH]; simpl; intros Hd Ha Hb Hg; [destruct Ha |].
  apply andb_true_iff in Hd. destruct Hd as [Hc Hl].
  apply negb_true_iff in Hc.
  assert (Hfresh : forall x, In x l -> g c <> g x).
  { intros x Hx Heq.
    assert (existsb (Z.eqb (g c)) (map g l) = true)
      by (apply existsb_exists; exists (g x); split;
          [now apply in_map | now apply Z.eqb_eq]).
    congruence. }
  destruct Ha as [<- | Ha], Hb as [<- | Hb].
  - reflexivity.
  - now apply Hfresh in Hb.
  - symmetry in Hg. now apply Hfresh in Ha.
  - now apply IH.
Qed.

Lemma db_consistent_intro d :
  (forall r, In r (deployments (tables d)) -> sd_id r < next_deployment_id d) ->
  (forall v, In v (versions (tables d)) ->
             dv_deployment v < next_deployment_id d) ->
  (forall v, In v (versions (tables d)) -> dv_id v < next_version_id d) ->
  distinct (map sd_id (deployments (tables d))) = true ->
  distinct (map dv_id (versions (tables d))) = true ->
  db_consistent d = true.
Proof.
  intros H1 H2 H3 H4 H5. unfold db_consistent.
  rewrite H4, H5, !andb_true_r.
  repeat (apply andb_true_iff; split); apply forallb_forall;
    intros x Hx; apply Z.ltb_lt; auto.
Qed.

Lemma rows_unchanged_consistent d d' :
  rows_unchanged d d' -> db_consistent d = true -> db_consistent d' = true.
Proof.
  intros (Hrows & Hdep & Hver) Hd.
  apply db_consistent_spec in Hd. destruct Hd as (H1 & H2 & H3 & H4 & H5).
  apply db_consistent_intro; rewrite Hrows; try assumption.
  - intros r Hr. specialize (H1 r Hr). lia.
  - intros v Hv. specialize (H2 v Hv). lia.
  - intros v Hv. specialize (H3 v Hv). lia.
Qed.

Lemma active_version_in d t v :
  In v (active_versions d t) ->
  In v (versions t) /\ dv_deployment v = sd_id d /\ dv_active v = true.
Proof.
  unfold active_versions, deployment_versions. intros H.
  apply filter_In in H. destruct H as [H Hactive].
  apply filter_In in H. destruct H as [Hin Hfk].
  apply Z.eqb_eq in Hfk. auto.
Qed.

Lemma overwrite_version_present v vs :
  (exists r, In r vs /\ dv_id r = dv_id v) ->
  overwrite_version v vs
  = map (fun r => if dv_id r =? dv_id v then v else r) vs.
Proof.
  intros (r & Hr & Hid). unfold overwrite_version.
  replace (existsb _ vs) with true; [reflexivity |].
  symmetry. apply existsb_exists. exists r.
  split; [exact Hr | now apply Z.eqb_eq].
Qed.

Lemma overwrite_version_ids v vs :
  (exists r, In r vs /\ dv_id r = dv_id v) ->
  map dv_id (overwrite_version v vs) = map dv_id vs.
Proof.
  intros H. rewrite overwrite_version_present by exact H.
  rewrite map_map. apply map_ext_in. intros r _.
  destruct (dv_id r =? dv_id v) eqn:E; [| reflexivity].
  apply Z.eqb_eq in E. congruence.
Qed.

Lemma overwrite_version_in v vs x :
  (exists r, In r vs /\ dv_id r = dv_id v) ->
  In x (overwrite_version v vs) -> x = v \/ In x vs.
Proof.
  intros H. rewrite overwrite_version_present by exact H.
  intros Hx. apply in_map_iff in Hx. destruct Hx as (r & <- & Hr).
  destruct (dv_id r =? dv_id v); auto.
Qed.

(** Every lifecycle request keeps the database consistent. *)
Lemma lifecycle_step_consistent w w' :
  lifecycle_step env w w' ->
  db_consistent (db w) = true -> db_consistent (db w') = true.
Proof.
  intros Hstep Hdb.
  pose proof (db_consistent_spec _ Hdb) as (H1 & H2 & H3 & H4 & H5).
  destruct Hstep as [request w | req deployment_id version w
                    | req deployment_id version w | req deployment_id w].
  - destruct (Deployments_post_rows request w) as [Hsame | (form & _ & _ & ->)];
      [exact (rows_unchanged_consistent _ _ Hsame Hdb) |].
    apply db_consistent_intro; cbn.
    + intros r Hr. apply in_app_or in Hr. destruct Hr as [Hr | [<- | []]].
      * specialize (H1 r Hr). lia.
      * cbn. lia.
    + intros v Hv. apply in_app_or in Hv. destruct Hv as [Hv | [<- | []]].
      * specialize (H2 v Hv). lia.
      * cbn. lia.
    + intros v Hv. apply in_app_or in Hv. destruct Hv as [Hv | [<- | []]].
      * specialize (H3 v Hv). lia.
      * cbn. lia.
    + rewrite map_app. apply distinct_snoc; [exact H4 |].
      intros y Hy. apply in_map_iff in Hy. destruct Hy as (r & <- & Hr).
      now apply H1.
    + rewrite map_app. apply distinct_snoc; [exact H5 |].
      intros y Hy. apply in_map_iff in Hy. destruct Hy as (v & <- & Hv).
      now apply H3.
  - destruct (DeploymentVersionView_post_rows req deployment_id version w)
      as [Hsame | (d & old & Hd & Hact & _ & ->)];
      [exact (rows_unchanged_consistent _ _ Hsame Hdb) |].
    assert (Hold : In old (active_versions d (tables (db w))))
      by (rewrite Hact; left; reflexivity).
    apply active_version_in in Hold. destruct Hold as (Hold & Hfk & _).
    assert (Hpresent : exists r, In r (versions (tables (db w)))
                                 /\ dv_id r = dv_id (set_active false old))
      by (exists old; split; [exact Hold | reflexivity]).
    apply db_consistent_intro; cbn.
    + exact H1.
    + intros v Hv. apply in_app_or in Hv. destruct Hv as [Hv | [<- | []]].
      * apply overwrite_version_in in Hv; [| exact Hpresent].
        destruct Hv as [-> | Hv]; [cbn; now apply H2 | now apply H2].
      * cbn. now apply H1.
    + intros v Hv. apply in_app_or in Hv. destruct Hv as [Hv | [<- | []]].
      * apply overwrite_version_in in Hv; [| exact Hpresent].
        destruct Hv as [-> | Hv].
        -- cbn. specialize (H3 old Hold). lia.
        -- specialize (H3 v Hv). lia.
      * cbn. lia.
    + exact H4.
    + rewrite map_app, overwrite_version_ids by exact Hpresent.
      apply distinct_snoc; [exact H5 |].
      intros y Hy. apply in_map_iff in Hy. destruct Hy as (v & <- & Hv).
      now apply H3.
  - destruct (DeploymentVersionView_delete_rows req deployment_id version w)
      as [Hsame | (d & _ & Hd & Hw')];
      [exact (rows_unchanged_consistent _ _ Hsame Hdb) |].
    cbv zeta in Hw'. rewrite Hw'.
    destruct (queryset_truthy _); apply db_consistent_intro; cbn.
    + exact H1.
    + intros v Hv. apply filter_In in Hv. now apply H2.
    + intros v Hv. apply filter_In in Hv. now apply H3.
    + exact H4.
    + now apply distinct_filter.
    + intros r Hr. apply filter_In in Hr. now apply H1.
    + intros v Hv. apply filter_In in Hv. now apply H2.
    + intros v Hv. apply filter_In in Hv. now apply H3.
    + now apply distinct_filter.
    + now apply distinct_filter.
  - destruct (Deployment_delete_rows req deployment_id w)
      as [Hsame | (d & Hd & ->)];
      [exact (rows_unchanged_consistent _ _ Hsame Hdb) |].
    apply db_consistent_intro; cbn.
    + intros r Hr. apply filter_In in Hr. now apply H1.
    + intros v Hv. apply filter_In in Hv. now apply H2.
    + intros v Hv. apply filter_In in Hv. now apply H3.
    + now apply distinct_filter.
    + now apply distinct_filter.
Qed.

(** A reachable database is consistent. *)
Lemma reachable_consistent w :
  reachable env w -> db_consistent (db w) = true.
Proof.
  induction 1 as [dep_id ver_id calls | w w' _ IH Hstep].
  - reflexivity.
  - exact (lifecycle_step_consistent w w' Hstep IH).
Qed.

(** ** The single active version is kept, except by one deletion *)

Lemma one_active_each_spec t :
  one_active_each t = true
  <-> (forall d, In d (deployments t) ->
                 List.length (active_versions d t) = 1%nat).
Proof.
  unfold one_active_each. rewrite forallb_forall.
  split; intros H d Hd; specialize (H d Hd); now apply Nat.eqb_eq.
Qed.

Lemma filter_implied {A} (f g : A -> bool) l :
  (forall x, f x = true -> g x = true) ->
  filter f (filter g l) = filter f l.
Proof.
  intros H. induction l as [| a l IH]; simpl; [reflexivity |].
  destruct (g a) eqn:Eg; simpl.
  - rewrite IH. reflexivity.
  - destruct (f a) eqn:Ef; [| exact IH].
    apply H in Ef. congruence.
Qed.

Lemma filter_map_fixed {A} (f : A -> bool) (g : A -> A) l :
  (forall x, In x l -> f (g x) = f x /\ (f x = true -> g x = x)) ->
  filter f (map g l) = filter f l.
Proof.
  induction l as [| a l IH]; simpl; intros H; [reflexivity |].
  destruct (H a (or_introl eq_refl)) as [Hf Hfix]. rewrite Hf.
  rewrite IH by (intros x Hx; apply H; right; exact Hx).
  destruct (f a); [rewrite Hfix by reflexivity |]; reflexivity.
Qed.

(** The versions of another deployment are not touched by a cascade. *)
Lemma versions_of_other_deployment k k' vs :
  k <> k' ->
  deployment_versions k (filter (fun v => negb (dv_deployment v =? k')) vs)
  = deployment_versions k vs.
Proof.
  intros Hk. unfold deployment_versions. apply filter_implied.
  intros v Hv. apply Z.eqb_eq in Hv. apply negb_true_iff, Z.eqb_neq. lia.
Qed.

Lemma versions_of_other_deployment_label k k' version vs :
  k <> k' ->
  deployment_versions k (without_label k' version vs)
  = deployment_versions k vs.
Proof.
  intros Hk. unfold deployment_versions, without_label. apply filter_implied.
  intros v Hv. apply Z.eqb_eq in Hv.
  apply negb_true_iff, andb_false_iff. left. apply Z.eqb_neq. lia.
Qed.

(** Writing the active version back inactive: its deployment has no active
    version left, every other deployment keeps its own. *)
Lemma deactivated_none_active d old vs :
  filter dv_active (deployment_versions (sd_id d) vs) = [old] ->
  filter dv_active
    (deployment_versions (sd_id d) (overwrite_version (set_active false old) vs))
  = [].
Proof.
  intros Hact.
  assert (Hold : In old (filter dv_active (deployment_versions (sd_id d) vs)))
    by (rewrite Hact; left; reflexivity).
  apply filter_In in Hold. destruct Hold as [Hold _].
  apply filter_In in Hold. destruct Hold as [Hold _].
  rewrite overwrite_version_present
    by (exists old; split; [exact Hold | reflexivity]).
  apply filter_none. intros x Hx.
  apply filter_In in Hx. destruct Hx as [Hx Hfk].
  apply in_map_iff in Hx. destruct Hx as (r & <- & Hr).
  cbn in *. destruct (dv_id r =? dv_id old) eqn:Eid; [reflexivity |].
  destruct (dv_active r) eqn:Eactive; [| reflexivity].
  assert (Hin : In r (filter dv_active (deployment_versions (sd_id d) vs))).
  { apply filter_In. split; [| exact Eactive].
    apply filter_In. split; assumption. }
  rewrite Hact in Hin. destruct Hin as [<- | []].
  rewrite Z.eqb_refl in Eid. discriminate.
Qed.

Lemma deactivated_other_deployment k old vs :
  distinct (map dv_id vs) = true ->
  In old vs ->
  dv_deployment old <> k ->
  deployment_versions k (overwrite_version (set_active false old) vs)
  = deployment_versions k vs.
Proof.
  intros Hdistinct Hold Hk.
  rewrite overwrite_version_present
    by (exists old; split; [exact Hold | reflexivity]).
  unfold deployment_versions. apply filter_map_fixed.
  intros r Hr. cbn. destruct (dv_id r =? dv_id old) eqn:Eid.
  - apply Z.eqb_eq in Eid.
    assert (r = old) by (apply (distinct_inj dv_id vs); assumption).
    subst r. cbn.
    replace (dv_deployment old =? k) with false
      by (symmetry; now apply Z.eqb_neq).
    split; [reflexivity | discriminate].
  - split; reflexivity.
Qed.

(** X21: on a consistent database, InitialUpload, NewVersionUpload and
    DeleteDeployment keep exactly one version of every deployment active,
    whether they succeed or fail. *)
Lemma one_active_each_kept w w' :
  db_consistent (db w) = true ->
  one_active_each (tables (db w)) = true ->
  (exists request, w' = fst (Deployments_post env request w))
  \/ (exists req deployment_id version,
        w' = fst (DeploymentVersionView_post env req deployment_id version w))
  \/ (exists req deployment_id,
        w' = fst (Deployment_delete env req deployment_id w)) ->
  one_active_each (tables (db w')) = true.
Proof.
  intros Hdb Hone Hstep.
  pose proof (db_consistent_spec _ Hdb) as (H1 & H2 & H3 & H4 & H5).
  pose proof (proj1 (one_active_each_spec _) Hone) as Hactive.
  apply one_active_each_spec.
  destruct Hstep as [(request & ->)
                    | [(req & deployment_id & version & ->)
                      | (req & deployment_id & ->)]].
  - destruct (Deployments_post_rows request w)
      as [(-> & _) | (form & _ & _ & ->)]; [exact Hactive |].
    cbn. intros d Hd. unfold active_versions, deployment_versions. cbn.
    rewrite !filter_app. cbn.
    apply in_app_or in Hd. destruct Hd as [Hd | [<- | []]].
    + replace (next_deployment_id (db w) =? sd_id d) with false
        by (symmetry; apply Z.eqb_neq; specialize (H1 d Hd); lia).
      cbn. rewrite app_nil_r. exact (Hactive d Hd).
    + cbn. rewrite Z.eqb_refl. cbn.
      rewrite (filter_none (fun v => dv_deployment v =? _)); [reflexivity |].
      intros v Hv. apply Z.eqb_neq. specialize (H2 v Hv). lia.
  - destruct (DeploymentVersionView_post_rows req deployment_id version w)
      as [(-> & _) | (d & old & Hd & Hact & _ & ->)]; [exact Hactive |].
    assert (Hold : In old (active_versions d (tables (db w))))
      by (rewrite Hact; left; reflexivity).
    apply active_version_in in Hold. destruct Hold as (Hold & Hfk & _).
    cbn. intros d0 Hd0. unfold active_versions, deployment_versions. cbn.
    rewrite !filter_app. cbn.
    destruct (Z.eq_dec (sd_id d0) (sd_id d)) as [Heq | Hneq].
    + rewrite Heq, Z.eqb_refl. cbn.
      fold (deployment_versions (sd_id d)
              (overwrite_version (set_active false old)
                 (versions (tables (db w))))).
      rewrite (deactivated_none_active d old _ Hact). reflexivity.
    + replace (sd_id d =? sd_id d0) with false
        by (symmetry; apply Z.eqb_neq; lia).
      cbn. rewrite app_nil_r.
      fold (deployment_versions (sd_id d0)
              (overwrite_version (set_active false old)
                 (versions (tables (db w))))).
      rewrite deactivated_other_deployment by (try assumption; lia).
      exact (Hactive d0 Hd0).
  - destruct (Deployment_delete_rows req deployment_id w)
      as [(-> & _) | (d & Hd & ->)]; [exact Hactive |].
    cbn -[active_versions]. intros d0 Hd0.
    apply filter_In in Hd0. destruct Hd0 as [Hd0 Hneq].
    apply negb_true_iff, Z.eqb_neq in Hneq.
    unfold active_versions. cbn -[deployment_versions].
    rewrite versions_of_other_deployment by exact Hneq.
    exact (Hactive d0 Hd0).
Qed.

(** X22: DeleteVersion keeps exactly one version of every deployment
    active too, unless the label is the one of the active version of the
    deployment and the deployment has a version with another label. *)
Lemma one_active_each_kept_by_delete req deployment_id version w :
  db_consistent (db w) = true ->
  one_active_each (tables (db w)) = true ->
  (forall d active_version other,
      lookup_deployment req deployment_id w = (w, Ok d) ->
      active_versions d (tables (db w)) = [active_version] ->
      dv_version active_version = version ->
      In other (versions (tables (db w))) ->
      dv_deployment other = sd_id d ->
      dv_version other = version) ->
  one_active_each
    (tables (db (fst (DeploymentVersionView_delete env req deployment_id
                        version w)))) = true.
Proof.
  intros Hdb Hone Hside.
  pose proof (proj1 (one_active_each_spec _) Hone) as Hactive.
  apply one_active_each_spec.
  destruct (DeploymentVersionView_delete_rows req deployment_id version w)
    as [(-> & _) | (d & Hl & Hd & Hw')]; [exact Hactive |].
  cbv zeta in Hw'. rewrite Hw'. clear Hw'.
  cbn -[active_versions without_deployment without_label].
  destruct (queryset_truthy _) eqn:Hremaining.
  - cbn -[active_versions without_label]. intros d0 Hd0.
    unfold active_versions. cbn -[deployment_versions without_label].
    destruct (Z.eq_dec (sd_id d0) (sd_id d)) as [Heq | Hneq].
    + rewrite Heq, without_label_versions, filter_comm.
      specialize (Hactive d Hd). unfold active_versions in Hactive.
      destruct (filter dv_active _) as [| a [| b rest]] eqn:Hact;
        try discriminate Hactive.
      cbn. unfold has_label.
      destruct (dv_version a =? version)%string eqn:Elabel; [| reflexivity].
      apply String.eqb_eq in Elabel. exfalso.
      rewrite without_label_versions, filter_none in Hremaining;
        [discriminate |].
      intros v Hv. apply filter_In in Hv. destruct Hv as [Hv Hfk].
      apply Z.eqb_eq in Hfk. unfold has_label.
      rewrite (Hside d a v Hl Hact Elabel Hv Hfk), String.eqb_refl.
      reflexivity.
    + rewrite versions_of_other_deployment_label by exact Hneq.
      exact (Hactive d0 Hd0).
  - cbn -[active_versions].
    intros d0 Hd0. apply filter_In in Hd0. destruct Hd0 as [Hd0 Hneq].
    apply negb_true_iff, Z.eqb_neq in Hneq.
    unfold active_versions. cbn -[deployment_versions].
    rewrite versions_of_other_deployment by exact Hneq.
    exact (Hactive d0 Hd0).
Qed.

End Properties.

(** * The properties on the blog deployment *)

Lemma world_v2_rows :
  tables (db world_v2) = mkTables [blog] [blog_v1 false; blog_v2].
Proof. reflexivity. Qed.

Lemma existing_label_conflict_witness :
  DeploymentVersionView_post env_ok (by_field "name") "blog" "v1" world_v2
  = (world_v2, HttpResponseBadRequest "The new version name must be unique.").
Proof.
  apply (existing_label_conflict env_ok (by_field "name") "blog" "v1" world_v2
           blog (blog_v1 false)).
  - reflexivity.
  - reflexivity.
  - left. reflexivity.
  - reflexivity.
  - reflexivity.
Defined.



Lemma no_active_version_is_server_error_witness :
  Deployment_get (by_field "name") "blog" world_v2_deleted
  = (world_v2_deleted, server_error)
  /\ DeploymentVersionView_post env_ok (by_field "name") "blog" "v3"
       world_v2_deleted
     = (world_v2_deleted, server_error).
Proof.
  destruct (no_active_version_is_server_error env_ok (by_field "name") "blog"
              "v3" world_v2_deleted blog eq_refl eq_refl)
    as [[_ Hget] [Hpost _]].
  split; [exact Hget |].
  apply Hpost.
  - reflexivity.
  - intros v [<- | []] _. discriminate.
Defined.

Lemma extraction_failure_rolls_back_witness :
  tables (db (fst (Deployments_post env_extract_fails
                     (upload_request "shop" "shop-sub" "v1") world_v2)))
  = tables (db world_v2)
  /\ is_failure (snd (Deployments_post env_extract_fails
                        (upload_request "shop" "shop-sub" "v1") world_v2))
     = true.
Proof.
  destruct (extraction_failure_rolls_back env_extract_fails
              (upload_request "shop" "shop-sub" "v1") world_v2
              (mkForm "shop" "shop-sub" "v1") archive (OSError "bad archive")
              eq_refl eq_refl eq_refl eq_refl eq_refl eq_refl)
    as [Hrows [Hfail _]].
  split; assumption.
Defined.

Lemma second_create_conflicts_witness :
  Deployments_post env_ok (upload_request "blog" "other-sub" "v1") world_v1
  = (world_v1, HttpResponseBadRequest "`name` and `subdomain` must be unique!")
  /\ Deployments_post env_ok (upload_request "other" "blog-sub" "v1") world_v2
     = (world_v2,
        HttpResponseBadRequest "`name` and `subdomain` must be unique!").
Proof.
  split.
  - apply (second_create_conflicts env_ok
             (upload_request "blog" "blog-sub" "v1")
             (upload_request "blog" "other-sub" "v1")
             empty_world world_v1
             (CreatedJson "blog" "blog-sub" "v1" (example_url blog))
             (mkForm "blog" "blog-sub" "v1") (mkForm "blog" "other-sub" "v1"));
      try reflexivity.
    + left. reflexivity.
    + left. reflexivity.
  - apply (second_create_conflicts env_ok
             (upload_request "blog" "blog-sub" "v1")
             (upload_request "other" "blog-sub" "v1")
             empty_world world_v1
             (CreatedJson "blog" "blog-sub" "v1" (example_url blog))
             (mkForm "blog" "blog-sub" "v1") (mkForm "other" "blog-sub" "v1"));
      try reflexivity.
    + right. reflexivity.
    + left. reflexivity.
Defined.

Lemma initial_upload_round_trip_witness :
  let answer :=
    (world_v1, JsonResponse (DeploymentJson blog ["v1"] "v1")) in
  Deployment_get (by_field "name") "blog" world_v1 = answer
  /\ Deployment_get (by_field "subdomain") "blog-sub" world_v1 = answer
  /\ Deployment_get (by_field "id") "1" world_v1 = answer.
Proof.
  destruct (initial_upload_round_trip env_ok
              (upload_request "blog" "blog-sub" "v1") empty_world world_v1
              (CreatedJson "blog" "blog-sub" "v1" (example_url blog))
              (mkForm "blog" "blog-sub" "v1") eq_refl eq_refl eq_refl)
    as (Hname & Hsub & Hid).
  split; [| split].
  - apply (Hname (by_field "name")). reflexivity.
  - apply (Hsub (by_field "subdomain")). reflexivity.
  - apply (Hid (by_field "id")). reflexivity.
Defined.

(** C2 as stated fails: the symlink update of the upload of "v2" raises, the
    answer is a failure, and the database is not left with the new version:
    the rows are those from before, "v1" active and no "v2". *)
Lemma symlink_failure_does_not_commit :
  let result :=
    DeploymentVersionView_post env_symlink_fails (by_field "name") "blog" "v2"
      world_v1 in
  upload_outcome env_symlink_fails
    (fs_calls world_v1
       ++ [handle_uploaded_static_archive_call archive "blog-sub" "v2"
             (Some false)])
    (update_symlink_call "blog" "v2") = Some (OSError "symlink")
  /\ fs_calls (fst result)
     = fs_calls world_v1
         ++ [handle_uploaded_static_archive_call archive "blog-sub" "v2"
               (Some false);
             update_symlink_call "blog" "v2"]
  /\ is_failure (snd result) = true
  /\ versions (tables (db (fst result))) = [blog_v1 true]
  /\ ~ (exists v, In v (versions (tables (db (fst result))))
                  /\ dv_version v = "v2" /\ dv_active v = true).
Proof.
  repeat split.
  intros (v & [<- | []] & Hlabel & _). discriminate Hlabel.
Qed.

Lemma symlink_failure_rolls_back_witness :
  DeploymentVersionView_post env_symlink_fails (by_field "name") "blog" "v2"
    world_v1
  = (mkWorld (mkDB (mkTables [blog] [blog_v1 true]) 2 3)
       (fs_calls world_v1
          ++ [handle_uploaded_static_archive_call archive "blog-sub" "v2"
                (Some false);
              update_symlink_call "blog" "v2"]),
     server_error).
Proof.
  apply (symlink_failure_rolls_back env_symlink_fails (by_field "name") "blog"
           "v2" world_v1 blog (blog_v1 true) archive (OSError "symlink"));
    try reflexivity.
  intros v [<- | []] _. discriminate.
Defined.



Lemma delete_active_version_leaves_none_active_witness :
  snd (DeploymentVersionView_delete env_ok (by_field "name") "blog" "v2"
         world_v2) = JsonResponse SuccessJson
  /\ In blog (deployments (tables (db world_v2_deleted)))
  /\ active_versions blog (tables (db world_v2_deleted)) = [].
Proof.
  apply (delete_active_version_leaves_none_active env_ok (by_field "name")
           "blog" "v2" world_v2 blog blog_v2 (blog_v1 false));
    try reflexivity.
  - left. reflexivity.
  - discriminate.
Defined.

(** The blog deployment without an active version is reached by three
    requests from empty tables: the single active version is not an
    invariant of the lifecycle. *)
Lemma one_active_each_not_invariant :
  reachable env_ok world_v2_deleted
  /\ db_consistent (db world_v2_deleted) = true
  /\ one_active_each (tables (db world_v2)) = true
  /\ one_active_each (tables (db world_v2_deleted)) = false.
Proof.
  split; [| repeat split].
  apply (reachable_step env_ok world_v2).
  - apply (reachable_step env_ok world_v1).
    + apply (reachable_step env_ok empty_world).
      * apply reachable_empty.
      * apply InitialUpload.
    + apply NewVersionUpload.
  - apply DeleteVersion.
Qed.

(** * The lifecycle beyond the single requests *)

Section Lifecycle.

Variable env : Collaborators.

(** ** Lists *)

Lemma NoDup_map_filter {A B} (g : A -> B) (f : A -> bool) l :
  NoDup (map g l) -> NoDup (map g (filter f l)).
Proof.
  induction l as [| a l IH]; simpl; intros H; [constructor |].
  inversion H as [| x xs Hfresh Hrest]; subst.
  destruct (f a); simpl; [| now apply IH].
  constructor; [| now apply IH].
  intros Hin. apply Hfresh.
  apply in_map_iff in Hin. destruct Hin as (b & Hb & Hbin).
  apply filter_In in Hbin. apply in_map_iff. exists b. tauto.
Qed.

Lemma NoDup_snoc {A} (l : list A) x :
  NoDup l -> ~ In x l -> NoDup (l ++ [x]).
Proof.
  intros Hl Hx. apply NoDup_app.
  - exact Hl.
  - constructor; [intros [] | constructor].
  - intros a Ha [<- | []]. contradiction.
Qed.

Lemma app_not_nil_l {A} (l l' : list A) : l <> [] -> l ++ l' <> [].
Proof. destruct l; [congruence | discriminate]. Qed.

Lemma queryset_truthy_not_nil {A} (l : list A) :
  queryset_truthy l = true -> l <> [].
Proof. destruct l; [discriminate | discriminate]. Qed.

(** Writing a row back inactive changes the flag of that row and nothing
    else, keys being distinct. *)
Lemma deactivated_rows old vs :
  distinct (map dv_id vs) = true ->
  In old vs ->
  overwrite_version (set_active false old) vs
  = map (fun r => if dv_id r =? dv_id old then set_active false r else r) vs.
Proof.
  intros Hdistinct Hold.
  rewrite overwrite_version_present
    by (exists old; split; [exact Hold | reflexivity]).
  apply map_ext_in. intros r Hr. cbn.
  destruct (dv_id r =? dv_id old) eqn:E; [| reflexivity].
  apply Z.eqb_eq in E.
  rewrite (distinct_inj dv_id vs r old Hdistinct Hr Hold E). reflexivity.
Qed.

Lemma deactivated_versions k old vs :
  distinct (map dv_id vs) = true ->
  In old vs ->
  deployment_versions k (overwrite_version (set_active false old) vs)
  = map (fun r => if dv_id r =? dv_id old then set_active false r else r)
      (deployment_versions k vs).
Proof.
  intros Hdistinct Hold. rewrite deactivated_rows by assumption.
  unfold deployment_versions. rewrite filter_map_swap. f_equal.
  apply filter_ext. intros r. destruct (dv_id r =? dv_id old); reflexivity.
Qed.

Lemma deactivated_labels k old vs :
  distinct (map dv_id vs) = true ->
  In old vs ->
  map dv_version
    (deployment_versions k (overwrite_version (set_active false old) vs))
  = map dv_version (deployment_versions k vs).
Proof.
  intros Hdistinct Hold. rewrite deactivated_versions by assumption.
  rewrite map_map. apply map_ext. intros r.
  destruct (dv_id r =? dv_id old); reflexivity.
Qed.

Lemma deployment_versions_app k vs vs' :
  deployment_versions k (vs ++ vs')
  = deployment_versions k vs ++ deployment_versions k vs'.
Proof. unfold deployment_versions. apply filter_app. Qed.

Lemma deployment_versions_filter k p vs :
  deployment_versions k (filter p vs) = filter p (deployment_versions k vs).
Proof. unfold deployment_versions. apply filter_comm. Qed.

Lemma deployment_versions_fresh k vs :
  (forall v, In v vs -> dv_deployment v < k) -> deployment_versions k vs = [].
Proof.
  intros H. apply filter_none. intros v Hv. apply Z.eqb_neq.
  specialize (H v Hv). lia.
Qed.

(** ** The five things a request does to the rows *)

Lemma lifecycle_step_rows w w' :
  lifecycle_step env w w' -> rows_step w (tables (db w')).
Proof.
  intros [request w0 | req deployment_id version w0
         | req deployment_id version w0 | req deployment_id w0].
  - destruct (Deployments_post_rows env request w0)
      as [(-> & _) | (form & Hn & Hs & ->)];
      [apply rows_kept | now apply rows_created].
  - destruct (DeploymentVersionView_post_rows env req deployment_id version w0)
      as [(-> & _) | (d & old & Hd & Hact & Hnew & ->)];
      [apply rows_kept | now apply rows_new_version].
  - destruct (DeploymentVersionView_delete_rows env req deployment_id version w0)
      as [(-> & _) | (d & _ & Hd & Hw')]; [apply rows_kept |].
    cbv zeta in Hw'. rewrite Hw'. cbn -[without_deployment without_label].
    destruct (queryset_truthy _) eqn:Hleft.
    + apply rows_version_deleted;
        [exact Hd | now apply queryset_truthy_not_nil].
    + now apply rows_deployment_removed.
  - destruct (Deployment_delete_rows env req deployment_id w0)
      as [(-> & _) | (d & Hd & ->)];
      [apply rows_kept | now apply rows_deployment_removed].
Qed.

(** ** Each kind of step keeps the invariants *)

Lemma active_old_in d t old :
  active_versions d t = [old] ->
  In old (versions t) /\ dv_deployment old = sd_id d.
Proof.
  intros Hact.
  assert (Hin : In old (active_versions d t)) by (rewrite Hact; now left).
  apply active_version_in in Hin. tauto.
Qed.

Lemma rows_step_versions_owned w t' :
  rows_step w t' ->
  versions_owned (tables (db w)) -> versions_owned t'.
Proof.
  unfold versions_owned.
  intros [| form Hn Hs | d old version Hd Hact Hnew | d version Hd Hleft
         | d Hd] Howned; cbn.
  - exact Howned.
  - intros v Hv. apply in_app_or in Hv. destruct Hv as [Hv | [<- | []]].
    + destruct (Howned v Hv) as (o & Ho & Hid). exists o.
      split; [apply in_or_app; now left | exact Hid].
    + exists (new_deployment w form).
      split; [apply in_or_app; right; now left | reflexivity].
  - destruct (active_old_in _ _ _ Hact) as [Hold Hfk].
    intros v Hv. apply in_app_or in Hv. destruct Hv as [Hv | [<- | []]].
    + apply overwrite_version_in in Hv;
        [| exists old; split; [exact Hold | reflexivity]].
      destruct Hv as [-> | Hv]; [exists d; cbn; auto | now apply Howned].
    + exists d. cbn. auto.
  - intros v Hv. apply filter_In in Hv. now apply Howned.
  - intros v Hv. apply filter_In in Hv. destruct Hv as [Hv Hneq].
    destruct (Howned v Hv) as (o & Ho & Hid). exists o.
    split; [| exact Hid]. apply filter_In. split; [exact Ho |].
    rewrite Hid. exact Hneq.
Qed.

Lemma rows_step_deployments_versioned w t' :
  rows_step w t' ->
  db_consistent (db w) = true ->
  deployments_versioned (tables (db w)) -> deployments_versioned t'.
Proof.
  unfold deployments_versioned.
  intros [| form Hn Hs | d old version Hd Hact Hnew | d version Hd Hleft
         | d Hd] Hdb Hversioned; cbn -[deployment_versions];
    pose proof (db_consistent_spec _ Hdb) as (H1 & H2 & H3 & H4 & H5).
  - exact Hversioned.
  - intros d0 Hd0. rewrite deployment_versions_app.
    apply in_app_or in Hd0. destruct Hd0 as [Hd0 | [<- | []]].
    + apply app_not_nil_l. now apply Hversioned.
    + cbn. rewrite Z.eqb_refl. intros H. now apply app_eq_nil in H.
  - destruct (active_old_in _ _ _ Hact) as [Hold Hfk].
    intros d0 Hd0. rewrite deployment_versions_app.
    apply app_not_nil_l. rewrite deactivated_versions by assumption.
    intros H. apply map_eq_nil in H. now apply (Hversioned d0 Hd0).
  - intros d0 Hd0.
    destruct (Z.eq_dec (sd_id d0) (sd_id d)) as [-> | Hneq];
      [exact Hleft |].
    rewrite versions_of_other_deployment_label by exact Hneq.
    now apply Hversioned.
  - intros d0 Hd0. apply filter_In in Hd0. destruct Hd0 as [Hd0 Hneq].
    apply negb_true_iff, Z.eqb_neq in Hneq.
    rewrite versions_of_other_deployment by exact Hneq.
    now apply Hversioned.
Qed.

Lemma rows_step_names_unique w t' :
  rows_step w t' ->
  names_unique (tables (db w)) -> names_unique t'.
Proof.
  unfold names_unique.
  intros [| form Hn Hs | d old version Hd Hact Hnew | d version Hd Hleft
         | d Hd] [Hnames Hsubs]; cbn.
  - now split.
  - rewrite !map_app. cbn. split; apply NoDup_snoc; try assumption.
    + intros Hin. apply in_map_iff in Hin. destruct Hin as (r & Hr & Hin).
      unfold name_taken in Hn.
      assert (existsb (fun r => (sd_name r =? form_name form)%string)
                (deployments (tables (db w))) = true)
        by (apply existsb_exists; exists r; split;
            [exact Hin | now apply String.eqb_eq]).
      congruence.
    + intros Hin. apply in_map_iff in Hin. destruct Hin as (r & Hr & Hin).
      unfold subdomain_taken in Hs.
      assert (existsb (fun r => (sd_subdomain r =? form_subdomain form)%string)
                (deployments (tables (db w))) = true)
        by (apply existsb_exists; exists r; split;
            [exact Hin | now apply String.eqb_eq]).
      congruence.
  - now split.
  - now split.
  - split; now apply NoDup_map_filter.
Qed.

Lemma rows_step_labels_unique w t' :
  rows_step w t' ->
  db_consistent (db w) = true ->
  labels_unique (tables (db w)) -> labels_unique t'.
Proof.
  unfold labels_unique.
  intros [| form Hn Hs | d old version Hd Hact Hnew | d version Hd Hleft
         | d Hd] Hdb Hlabels k; cbn -[deployment_versions];
    pose proof (db_consistent_spec _ Hdb) as (H1 & H2 & H3 & H4 & H5).
  - apply Hlabels.
  - rewrite deployment_versions_app. cbn.
    destruct (next_deployment_id (db w) =? k) eqn:Ek.
    + apply Z.eqb_eq in Ek. subst k.
      rewrite deployment_versions_fresh by exact H2.
      cbn. constructor; [intros [] | constructor].
    + rewrite app_nil_r. apply Hlabels.
  - destruct (active_old_in _ _ _ Hact) as [Hold Hfk].
    rewrite deployment_versions_app, map_app.
    rewrite deactivated_labels by assumption. cbn.
    destruct (sd_id d =? k) eqn:Ek.
    + apply Z.eqb_eq in Ek. subst k. cbn. apply NoDup_snoc; [apply Hlabels |].
      intros Hin. apply in_map_iff in Hin. destruct Hin as (r & Hr & Hin).
      assert (Hr' : In r (filter (has_label version)
                            (deployment_versions (sd_id d)
                               (versions (tables (db w))))))
        by (apply filter_In; split;
            [exact Hin | unfold has_label; now apply String.eqb_eq]).
      rewrite Hnew in Hr'. destruct Hr'.
    + cbn. rewrite app_nil_r. apply Hlabels.
  - unfold without_label. rewrite deployment_versions_filter.
    apply NoDup_map_filter, Hlabels.
  - rewrite deployment_versions_filter. apply NoDup_map_filter, Hlabels.
Qed.

Lemma rows_step_at_most_one_active w t' :
  rows_step w t' ->
  db_consistent (db w) = true ->
  at_most_one_active (tables (db w)) -> at_most_one_active t'.
Proof.
  unfold at_most_one_active, active_versions.
  intros [| form Hn Hs | d old version Hd Hact Hnew | d version Hd Hleft
         | d Hd] Hdb Hactive; cbn -[deployment_versions];
    pose proof (db_consistent_spec _ Hdb) as (H1 & H2 & H3 & H4 & H5).
  - exact Hactive.
  - intros d0 Hd0. rewrite deployment_versions_app, filter_app. cbn.
    apply in_app_or in Hd0. destruct Hd0 as [Hd0 | [<- | []]].
    + replace (next_deployment_id (db w) =? sd_id d0) with false
        by (symmetry; apply Z.eqb_neq; specialize (H1 d0 Hd0); lia).
      cbn. rewrite app_nil_r. now apply Hactive.
    + cbn. rewrite Z.eqb_refl.
      rewrite deployment_versions_fresh by exact H2. cbn. lia.
  - destruct (active_old_in _ _ _ Hact) as [Hold Hfk].
    intros d0 Hd0. rewrite deployment_versions_app, filter_app. cbn.
    destruct (Z.eq_dec (sd_id d0) (sd_id d)) as [Heq | Hneq].
    + rewrite Heq, Z.eqb_refl.
      rewrite (deactivated_none_active d old _ Hact). cbn. lia.
    + replace (sd_id d =? sd_id d0) with false
        by (symmetry; apply Z.eqb_neq; lia).
      cbn. rewrite app_nil_r.
      rewrite deactivated_other_deployment by (try assumption; lia).
      now apply Hactive.
  - intros d0 Hd0. unfold without_label.
    rewrite deployment_versions_filter, filter_comm.
    etransitivity; [apply filter_length_le | now apply Hactive].
  - intros d0 Hd0. apply filter_In in Hd0. destruct Hd0 as [Hd0 _].
    rewrite deployment_versions_filter, filter_comm.
    etransitivity; [apply filter_length_le | now apply Hactive].
Qed.

(** ** Invariants of the reachable worlds *)

(** X1: in every world that lifecycle requests lead to from empty tables, no
    deployment has more than one active version. *)
Theorem reachable_at_most_one_active w :
  reachable env w -> at_most_one_active (tables (db w)).
Proof.
  induction 1 as [dep_id ver_id calls | w w' Hreach IH Hstep].
  - intros d [].
  - apply (rows_step_at_most_one_active w).
    + now apply lifecycle_step_rows.
    + now apply (reachable_consistent env).
    + exact IH.
Qed.

(** X2: in every reachable world each version row belongs to a deployment
    of the table and each deployment has at least one version: no version
    outlives its deployment and no deployment is left without versions. *)
Theorem reachable_owned_and_versioned w :
  reachable env w ->
  versions_owned (tables (db w)) /\ deployments_versioned (tables (db w)).
Proof.
  induction 1 as [dep_id ver_id calls | w w' Hreach [IHo IHv] Hstep].
  - split; [intros v [] | intros d []].
  - pose proof (lifecycle_step_rows w w' Hstep) as Hrows. split.
    + now apply (rows_step_versions_owned w).
    + apply (rows_step_deployments_versioned w); try assumption.
      now apply (reachable_consistent env).
Qed.

(** X3: in every reachable world the names of the deployments are pairwise
    different and so are their subdomains. *)
Theorem reachable_names_unique w :
  reachable env w -> names_unique (tables (db w)).
Proof.
  induction 1 as [dep_id ver_id calls | w w' Hreach IH Hstep].
  - split; constructor.
  - apply (rows_step_names_unique w); [now apply lifecycle_step_rows | exact IH].
Qed.

(** X4: in every reachable world the versions of one deployment have
    pairwise different labels, although no database constraint says so: the
    check in [DeploymentVersionView.post] is what keeps it. *)
Theorem reachable_labels_unique w :
  reachable env w -> labels_unique (tables (db w)).
Proof.
  induction 1 as [dep_id ver_id calls | w w' Hreach IH Hstep].
  - intros k. constructor.
  - apply (rows_step_labels_unique w).
    + now apply lifecycle_step_rows.
    + now apply (reachable_consistent env).
    + exact IH.
Qed.

(** ** Who may do what *)

(** X5: the listing and the four views that change something answer a
    request that is not logged in with 403 and the login message, before
    they look at anything else (lookup field, form, deployment), and leave
    the world as it is. *)
Theorem login_required req deployment_id version w :
  user_is_authenticated req = false ->
  let forbidden :=
    (w, HttpResponseForbidden "You must be logged into access this view") in
  Deployments_get req w = forbidden
  /\ Deployments_post env req w = forbidden
  /\ Deployment_delete env req deployment_id w = forbidden
  /\ DeploymentVersionView_post env req deployment_id version w = forbidden
  /\ DeploymentVersionView_delete env req deployment_id version w = forbidden.
Proof.
  intros Hanon forbidden.
  unfold Deployments_get, Deployments_post, Deployment_delete,
    DeploymentVersionView_post, DeploymentVersionView_delete,
    with_caught_exceptions, with_login_required.
  rewrite Hanon. repeat split.
Qed.

(** X6: the three reading views never change the world, whatever they
    answer, and the two that read one deployment or one version answer a
    visitor who is not logged in exactly as they answer a logged-in user. *)
Theorem reads_change_nothing req deployment_id version w :
  fst (Deployments_get req w) = w
  /\ fst (Deployment_get req deployment_id w) = w
  /\ fst (DeploymentVersionView_get req deployment_id version w) = w
  /\ (forall req',
        GET_lookupField req' = GET_lookupField req ->
        Deployment_get req' deployment_id w = Deployment_get req deployment_id w
        /\ DeploymentVersionView_get req' deployment_id version w
           = DeploymentVersionView_get req deployment_id version w).
Proof.
  split; [| split; [| split]].
  - unfold Deployments_get, with_caught_exceptions, with_login_required.
    destruct (user_is_authenticated req); reflexivity.
  - destruct (lookup_deployment req deployment_id w) as [w1 [d | e]] eqn:Hl;
      pose proof (lookup_deployment_pure _ _ _ _ _ Hl) as ->.
    + rewrite (Deployment_get_found _ _ _ _ Hl). reflexivity.
    + unfold Deployment_get, with_caught_exceptions.
      rewrite (bind_lookup_raises _ _ _ _ _ Hl). reflexivity.
  - unfold DeploymentVersionView_get, with_caught_exceptions.
    destruct (lookup_deployment req deployment_id w) as [w1 [d | e]] eqn:Hl;
      pose proof (lookup_deployment_pure _ _ _ _ _ Hl) as ->.
    + rewrite (bind_lookup_found _ _ _ _ _ Hl).
      unfold bind, instance_of, bind, get_or_none,
        DeploymentVersion_objects_get_version.
      destruct (filter (has_label version) _) as [| a [| b rest]]; reflexivity.
    + rewrite (bind_lookup_raises _ _ _ _ _ Hl). reflexivity.
  - intros req' Hfield.
    unfold Deployment_get, DeploymentVersionView_get, get_query_dict.
    rewrite Hfield. split; reflexivity.
Qed.

(** ** InitialUpload beyond the conflict and the failed extraction *)

(** X7: when the form or a validator refuses the request, [Deployments.post]
    answers with the answer of that exception and the world is untouched:
    no row, no counter, no call into the upload module.  The name is
    validated before the subdomain, so with both invalid the answer is the
    one for the name. *)
Theorem invalid_create_changes_nothing request w :
  user_is_authenticated request = true ->
  (forall e, get_validated_form env request = Raise e ->
             Deployments_post env request w = (w, exception_response e))
  /\ (forall form e,
        get_validated_form env request = Ok form ->
        validate_deployment_name env (form_name form) = Raise e ->
        Deployments_post env request w = (w, exception_response e))
  /\ (forall form e,
        get_validated_form env request = Ok form ->
        validate_deployment_name env (form_name form) = Ok tt ->
        validate_subdomain env (form_subdomain form) = Raise e ->
        Deployments_post env request w = (w, exception_response e)).
Proof.
  intros Hauth.
  unfold Deployments_post, with_caught_exceptions, with_login_required.
  rewrite Hauth. repeat split.
  - intros e Hform.
    erewrite bind_raise by (unfold lift; rewrite Hform; reflexivity).
    reflexivity.
  - intros form e Hform Hname. step_ok Hform.
    erewrite bind_raise by (unfold lift; rewrite Hname; reflexivity).
    reflexivity.
  - intros form e Hform Hname Hsub. step_ok Hform. step_ok Hname.
    erewrite bind_raise by (unfold lift; rewrite Hsub; reflexivity).
    reflexivity.
Qed.

(** X8: a logged-in create whose form and names pass validation, whose name
    and subdomain are free, which carries a file and whose extraction
    returns, adds one deployment row and one active version row pointing to
    it, makes the one extraction call with the subdomain and the version,
    and answers with the name, the subdomain, the version and the url of
    the new deployment. *)
Theorem initial_upload_commits request w form file :
  user_is_authenticated request = true ->
  get_validated_form env request = Ok form ->
  validate_deployment_name env (form_name form) = Ok tt ->
  validate_subdomain env (form_subdomain form) = Ok tt ->
  name_taken (form_name form) w = false ->
  subdomain_taken (form_subdomain form) w = false ->
  FILES_file request = Some file ->
  let call := handle_uploaded_static_archive_call
                file (form_subdomain form) (form_version form) None in
  upload_outcome env (fs_calls w) call = None ->
  Deployments_post env request w
  = (mkWorld
       (mkDB (mkTables
                (deployments (tables (db w)) ++ [new_deployment w form])
                (versions (tables (db w))
                   ++ [new_version w (next_deployment_id (db w))
                         (form_version form)]))
             (next_deployment_id (db w) + 1)
             (next_version_id (db w) + 1))
       (fs_calls w ++ [call]),
     JsonResponse (CreatedJson (form_name form) (form_subdomain form)
                     (form_version form)
                     (get_url env (new_deployment w form)))).
Proof.
  intros Hauth Hform Hname Hsub Hn Hs Hfile call Hcall.
  rewrite (Deployments_post_validated env request w form Hauth Hform Hname Hsub).
  unfold with_caught_exceptions.
  erewrite bind_ok.
  2:{ apply except_IntegrityError_ok.
      rewrite (initial_upload_free env request w form file Hn Hs Hfile).
      cbv zeta. fold call. rewrite Hcall. reflexivity. }
  reflexivity.
Qed.

(** X9: an upload without the file part is answered with the server error,
    not with a 400: [FILES["file"]] raises inside the transaction, after the
    rows were written, so the rows go back and no call into the upload
    module is made.  This holds for the first upload and for the upload of
    a further version. *)
Theorem upload_without_file req deployment_id version w :
  user_is_authenticated req = true ->
  FILES_file req = None ->
  (forall form,
      get_validated_form env req = Ok form ->
      validate_deployment_name env (form_name form) = Ok tt ->
      validate_subdomain env (form_subdomain form) = Ok tt ->
      name_taken (form_name form) w = false ->
      subdomain_taken (form_subdomain form) w = false ->
      Deployments_post env req w
      = (mkWorld (mkDB (tables (db w)) (next_deployment_id (db w) + 1)
                       (next_version_id (db w) + 1))
                 (fs_calls w),
         server_error))
  /\ (forall d old_version,
        lookup_deployment req deployment_id w = (w, Ok d) ->
        (forall v, In v (versions (tables (db w))) ->
                   dv_deployment v = sd_id d -> dv_version v <> version) ->
        active_versions d (tables (db w)) = [old_version] ->
        DeploymentVersionView_post env req deployment_id version w
        = (mkWorld (mkDB (tables (db w)) (next_deployment_id (db w))
                         (next_version_id (db w) + 1))
                   (fs_calls w),
           server_error)).
Proof.
  intros Hauth Hfile. split.
  - intros form Hform Hname Hsub Hn Hs.
    rewrite (Deployments_post_validated env req w form Hauth Hform Hname Hsub).
    unfold with_caught_exceptions.
    erewrite bind_raise.
    2:{ apply (except_IntegrityError_raise _ _ _
                 (MultiValueDictKeyError "file")).
        unfold atomic, initial_upload_transaction, bind, StaticDeployment_save,
          FILES_getitem_file.
        unfold name_taken in Hn. unfold subdomain_taken in Hs.
        cbn. rewrite Hn, Hs, Hfile. reflexivity. }
    reflexivity.
  - intros d old Hlookup Hnew Hact.
    rewrite (DeploymentVersionView_post_new_label env _ _ _ _ d Hauth Hlookup
               Hnew).
    unfold with_caught_exceptions.
    erewrite bind_raise.
    2:{ unfold atomic, new_version_transaction, bind,
          DeploymentVersion_objects_get_active, FILES_getitem_file.
        unfold active_versions in Hact. rewrite Hact, Hfile. reflexivity. }
    reflexivity.
Qed.

(** ** NewVersionUpload beyond the conflict and the failed symlink *)

(** The lookup reads the deployments table and nothing else. *)
Lemma lookup_deployment_same_deployments req deployment_id w w' :
  deployments (tables (db w')) = deployments (tables (db w)) ->
  snd (lookup_deployment req deployment_id w')
  = snd (lookup_deployment req deployment_id w).
Proof.
  intros Hsame.
  assert (Hselect : forall field,
             select_deployments field deployment_id (tables (db w'))
             = select_deployments field deployment_id (tables (db w)))
    by (intros field; unfold select_deployments; rewrite Hsame; reflexivity).
  unfold lookup_deployment, bind, get_query_dict, instance_of, bind,
    get_or_none, StaticDeployment_objects_get, raise, ret.
  destruct (negb _); cbn; [reflexivity |].
  rewrite Hselect.
  destruct (select_deployments _ _ _) as [[| a [| b rest]] | e]; cbn;
    try reflexivity.
  destruct e; try destruct model; reflexivity.
Qed.

Lemma lookup_deployment_still_found req deployment_id w w' d :
  deployments (tables (db w')) = deployments (tables (db w)) ->
  lookup_deployment req deployment_id w = (w, Ok d) ->
  lookup_deployment req deployment_id w' = (w', Ok d).
Proof.
  intros Hsame Hl.
  pose proof (lookup_deployment_same_deployments req deployment_id w w' Hsame)
    as Hsnd.
  rewrite Hl in Hsnd. cbn in Hsnd.
  destruct (lookup_deployment req deployment_id w') as [w1 r] eqn:Hl'.
  pose proof (lookup_deployment_pure _ _ _ _ _ Hl') as ->.
  cbn in Hsnd. now subst r.
Qed.

(** What a successful NewVersionUpload has done. *)
Lemma DeploymentVersionView_post_success req deployment_id version w w' body :
  DeploymentVersionView_post env req deployment_id version w
  = (w', JsonResponse body) ->
  exists d old_version file,
    lookup_deployment req deployment_id w = (w, Ok d)
    /\ active_versions d (tables (db w)) = [old_version]
    /\ FILES_file req = Some file
    /\ w' = mkWorld
              (mkDB (mkTables
                       (deployments (tables (db w)))
                       (overwrite_version (set_active false old_version)
                          (versions (tables (db w)))
                          ++ [new_version w (sd_id d) version]))
                    (next_deployment_id (db w))
                    (next_version_id (db w) + 1))
              ((fs_calls w
                  ++ [handle_uploaded_static_archive_call file
                        (sd_subdomain d) version (Some false)])
                 ++ [update_symlink_call (sd_name d) version])
    /\ body = VersionJson (new_version w (sd_id d) version).
Proof.
  unfold DeploymentVersionView_post, with_caught_exceptions, with_login_required.
  destruct (user_is_authenticated req); [| discriminate].
  destruct (lookup_deployment req deployment_id w) as [w1 [d | e]] eqn:Hl;
    pose proof (lookup_deployment_pure _ _ _ _ _ Hl) as ->.
  2:{ rewrite (bind_lookup_raises _ _ _ _ _ Hl).
      intros [= _ H]. now apply exception_response_not_json in H. }
  rewrite (bind_lookup_found _ _ _ _ _ Hl).
  unfold bind at 1, DeploymentVersion_filter_version.
  destruct (filter (has_label version) _); cbn; [| discriminate].
  destruct (active_versions d (tables (db w))) as [| old [| x rest]] eqn:Hact.
  - unfold bind, atomic, new_version_transaction, bind,
      DeploymentVersion_objects_get_active.
    unfold active_versions in Hact. rewrite Hact. cbn. discriminate.
  - destruct (FILES_file req) as [file |] eqn:Hfile.
    + unfold bind at 1.
      rewrite (new_version_transaction_steps env req d version w old file Hact
                 Hfile).
      cbv zeta.
      destruct (upload_outcome env (fs_calls w) _);
        [intros [= _ H]; now apply exception_response_not_json in H |].
      destruct (upload_outcome env (fs_calls w ++ _) _);
        [intros [= _ H]; now apply exception_response_not_json in H |].
      intros [= <- <-]. exists d, old, file. repeat split. exact Hact.
    + unfold bind, atomic, new_version_transaction, bind,
        DeploymentVersion_objects_get_active, FILES_getitem_file.
      unfold active_versions in Hact. rewrite Hact, Hfile. cbn. discriminate.
  - unfold bind, atomic, new_version_transaction, bind,
      DeploymentVersion_objects_get_active.
    unfold active_versions in Hact. rewrite Hact. cbn. discriminate.
Qed.

(** X10: after a NewVersionUpload that succeeded on a consistent database,
    reading the deployment with the same lookup gives the deployment record
    unchanged, the labels it had before followed by the new label, and the
    new label as the active version: the new version is listed last and
    has taken over from the old one. *)
Theorem new_version_then_read
  req deployment_id version w w' body :
  db_consistent (db w) = true ->
  DeploymentVersionView_post env req deployment_id version w
  = (w', JsonResponse body) ->
  exists d,
    lookup_deployment req deployment_id w = (w, Ok d)
    /\ Deployment_get req deployment_id w'
       = (w', JsonResponse
                (DeploymentJson d
                   (map dv_version
                      (deployment_versions (sd_id d) (versions (tables (db w))))
                      ++ [version])
                   version)).
Proof.
  intros Hdb Hpost.
  apply DeploymentVersionView_post_success in Hpost.
  destruct Hpost as (d & old & file & Hl & Hact & _ & -> & _).
  exists d. split; [exact Hl |].
  pose proof (db_consistent_spec _ Hdb) as (_ & _ & _ & _ & H5).
  destruct (active_old_in _ _ _ Hact) as [Hold Hfk].
  erewrite Deployment_get_found
    by (apply (lookup_deployment_still_found req deployment_id w);
        [reflexivity | exact Hl]).
  unfold active_versions. cbn -[deployment_versions].
  rewrite deployment_versions_app, filter_app, map_app.
  rewrite (deactivated_none_active d old _ Hact).
  rewrite deactivated_labels by assumption.
  cbn. rewrite Z.eqb_refl. reflexivity.
Qed.

(** X11: when the extraction of a further version raises, the rows are the
    ones from before the request (the old version is still active, the new
    one is not in the table), the extraction is the only call that was
    made, so the symlink has not been touched, and the answer is the one of
    the exception. *)
Theorem new_version_extraction_failure
  req deployment_id version w d old_version file e :
  user_is_authenticated req = true ->
  lookup_deployment req deployment_id w = (w, Ok d) ->
  (forall v, In v (versions (tables (db w))) ->
             dv_deployment v = sd_id d -> dv_version v <> version) ->
  active_versions d (tables (db w)) = [old_version] ->
  FILES_file req = Some file ->
  let extract := handle_uploaded_static_archive_call
                   file (sd_subdomain d) version (Some false) in
  upload_outcome env (fs_calls w) extract = Some e ->
  DeploymentVersionView_post env req deployment_id version w
  = (mkWorld (mkDB (tables (db w)) (next_deployment_id (db w))
                   (next_version_id (db w) + 1))
             (fs_calls w ++ [extract]),
     exception_response e).
Proof.
  intros Hauth Hlookup Hnew Hactive Hfile extract Hextract.
  rewrite (DeploymentVersionView_post_new_label env _ _ _ _ d Hauth Hlookup
             Hnew).
  unfold with_caught_exceptions.
  erewrite bind_raise.
  2:{ rewrite (new_version_transaction_steps env req d version w old_version
                 file Hactive Hfile).
      cbv zeta. fold extract. rewrite Hextract. reflexivity. }
  reflexivity.
Qed.

(** X12: when the lookup of the deployment raises (unrecognized lookup
    field, no such deployment, an id that is no integer), each of the five
    views on one deployment answers with the answer of that exception and
    changes nothing; the three that need a login do so for a logged-in
    user. *)
Theorem failed_lookup_changes_nothing req deployment_id version w e :
  lookup_deployment req deployment_id w = (w, Raise e) ->
  Deployment_get req deployment_id w = (w, exception_response e)
  /\ DeploymentVersionView_get req deployment_id version w
     = (w, exception_response e)
  /\ (user_is_authenticated req = true ->
      Deployment_delete env req deployment_id w = (w, exception_response e)
      /\ DeploymentVersionView_post env req deployment_id version w
         = (w, exception_response e)
      /\ DeploymentVersionView_delete env req deployment_id version w
         = (w, exception_response e)).
Proof.
  intros Hl.
  unfold Deployment_get, DeploymentVersionView_get, Deployment_delete,
    DeploymentVersionView_post, DeploymentVersionView_delete,
    with_caught_exceptions, with_login_required, with_default_success.
  split; [| split].
  - rewrite (bind_lookup_raises _ _ _ _ _ Hl). reflexivity.
  - rewrite (bind_lookup_raises _ _ _ _ _ Hl). reflexivity.
  - intros Hauth. rewrite Hauth. repeat split.
    + unfold bind at 1, atomic.
      rewrite (bind_lookup_raises _ _ _ _ _ Hl). reflexivity.
    + rewrite (bind_lookup_raises _ _ _ _ _ Hl). reflexivity.
    + unfold bind at 1, atomic.
      rewrite (bind_lookup_raises _ _ _ _ _ Hl). reflexivity.
Qed.

(** ** Deleting *)

(** Which rows a lookup selects is decided by the field and the value,
    whatever the table. *)
Lemma select_deployments_shape field value :
  (exists f, forall t,
      select_deployments field value t = Ok (filter f (deployments t)))
  \/ (exists msg, forall t,
        select_deployments field value t = Raise (ValueError msg)).
Proof.
  unfold select_deployments.
  destruct (field =? "id")%string.
  - destruct (py_int value); [left | right]; eauto.
  - destruct (field =? "name")%string; [left; eauto |].
    destruct (field =? "subdomain")%string; [left | right]; eauto.
Qed.

(** A lookup that found [d] selected [d] and no other row. *)
Lemma lookup_deployment_found_rows req deployment_id w w' d :
  lookup_deployment req deployment_id w = (w', Ok d) ->
  recognized_field (lookup_field req) = true
  /\ exists f,
       (forall t, select_deployments (lookup_field req) deployment_id t
                  = Ok (filter f (deployments t)))
       /\ filter f (deployments (tables (db w))) = [d].
Proof.
  intros Hl.
  destruct (recognized_field (lookup_field req)) eqn:Hrec.
  2:{ unfold lookup_deployment in Hl.
      erewrite bind_raise in Hl
        by (apply get_query_dict_unrecognized; exact Hrec).
      discriminate Hl. }
  split; [reflexivity |].
  destruct (select_deployments_shape (lookup_field req) deployment_id)
    as [[f Hf] | [msg Hmsg]].
  - exists f. split; [exact Hf |].
    rewrite (lookup_deployment_rows req deployment_id w _ Hrec (Hf _)) in Hl.
    destruct (filter f _) as [| a [| b rest]]; try discriminate Hl.
    injection Hl as _ <-. reflexivity.
  - unfold lookup_deployment, bind in Hl.
    rewrite get_query_dict_recognized in Hl by exact Hrec.
    unfold instance_of, bind, get_or_none, StaticDeployment_objects_get in Hl.
    cbn in Hl. rewrite Hmsg in Hl. discriminate Hl.
Qed.

(** X13: a DeleteDeployment by a logged-in user whose directory deletion
    returns removes the deployment row and every version row pointing to
    it, leaves all other rows, calls [delete_hosted_deployment] with the
    deployment's name and answers with the success message; the same lookup
    afterwards is answered 404. *)
Theorem delete_deployment_then_gone req deployment_id w d :
  user_is_authenticated req = true ->
  lookup_deployment req deployment_id w = (w, Ok d) ->
  let call := delete_hosted_deployment_call (ByName (sd_name d)) in
  upload_outcome env (fs_calls w) call = None ->
  let w' := mkWorld (mkDB (without_deployment (sd_id d) (tables (db w)))
                          (next_deployment_id (db w)) (next_version_id (db w)))
                    (fs_calls w ++ [call]) in
  Deployment_delete env req deployment_id w = (w', JsonResponse SuccessJson)
  /\ Deployment_get req deployment_id w' = (w', HttpResponseNotFound).
Proof.
  intros Hauth Hl call Hcall w'. split.
  - rewrite (Deployment_delete_steps env _ _ _ d Hauth Hl). cbv zeta.
    fold call. rewrite Hcall. reflexivity.
  - destruct (lookup_deployment_found_rows _ _ _ _ _ Hl)
      as (Hrec & f & Hselect & Hrows).
    assert (Hgone : lookup_deployment req deployment_id w'
                    = (w', Raise NotFound)).
    { rewrite (lookup_deployment_rows req deployment_id w' [] Hrec);
        [reflexivity |].
      rewrite Hselect. subst w'. cbn. rewrite filter_comm, Hrows. cbn.
      rewrite Z.eqb_refl. reflexivity. }
    unfold Deployment_get, with_caught_exceptions.
    rewrite (bind_lookup_raises _ _ _ _ _ Hgone). reflexivity.
Qed.

(** X14: when the directory deletion raises, DeleteDeployment and
    DeleteVersion answer with the answer of that exception and the database
    is exactly the one from before the request: the rows that were deleted
    inside the transaction are back.  The call that failed stays in the
    log. *)
Theorem failed_deletion_rolls_back req deployment_id version w d e :
  user_is_authenticated req = true ->
  lookup_deployment req deployment_id w = (w, Ok d) ->
  (let call := delete_hosted_deployment_call (ByName (sd_name d)) in
   upload_outcome env (fs_calls w) call = Some e ->
   Deployment_delete env req deployment_id w
   = (mkWorld (db w) (fs_calls w ++ [call]), exception_response e))
  /\ (let call :=
        if queryset_truthy
             (deployment_versions (sd_id d)
                (without_label (sd_id d) version (versions (tables (db w)))))
        then delete_hosted_version_call (sd_name d) version
        else delete_hosted_deployment_call (ByInstance d) in
      upload_outcome env (fs_calls w) call = Some e ->
      DeploymentVersionView_delete env req deployment_id version w
      = (mkWorld (db w) (fs_calls w ++ [call]), exception_response e)).
Proof.
  intros Hauth Hl. split; intros call Hcall.
  - rewrite (Deployment_delete_steps env _ _ _ d Hauth Hl). cbv zeta.
    fold call. rewrite Hcall. reflexivity.
  - rewrite (DeploymentVersionView_delete_steps env _ _ _ _ d Hauth Hl).
    cbv zeta. fold call. rewrite Hcall. reflexivity.
Qed.

(** The deployment that a create just made is found by its name. *)
Lemma lookup_created_by_name request req w w1 body form :
  Deployments_post env request w = (w1, JsonResponse body) ->
  get_validated_form env request = Ok form ->
  lookup_field req = "name" ->
  lookup_deployment req (form_name form) w1 = (w1, Ok (new_deployment w form))
  /\ tables (db w1)
     = mkTables (deployments (tables (db w)) ++ [new_deployment w form])
                (versions (tables (db w))
                   ++ [new_version w (next_deployment_id (db w))
                         (form_version form)])
  /\ next_deployment_id (db w1) = next_deployment_id (db w) + 1
  /\ next_version_id (db w1) = next_version_id (db w) + 1.
Proof.
  intros Hpost Hform Hfield.
  apply (Deployments_post_success env) in Hpost.
  destruct Hpost as (form' & file & Hform' & _ & Hn & _ & ->).
  rewrite Hform in Hform'. injection Hform' as <-.
  split; [| repeat split].
  rewrite (lookup_deployment_rows req _ _ [new_deployment w form]);
    [reflexivity | rewrite Hfield; reflexivity |].
  rewrite Hfield. unfold select_deployments. cbn.
  rewrite filter_app, existsb_false_filter by exact Hn.
  cbn. rewrite String.eqb_refl. reflexivity.
Qed.

Lemma without_new_deployment (d : DB) nd nv :
  db_consistent d = true ->
  sd_id nd = next_deployment_id d ->
  dv_deployment nv = next_deployment_id d ->
  without_deployment (next_deployment_id d)
    (mkTables (deployments (tables d) ++ [nd]) (versions (tables d) ++ [nv]))
  = tables d.
Proof.
  intros Hdb Hnd Hnv.
  apply db_consistent_spec in Hdb. destruct Hdb as (H1 & H2 & _).
  unfold without_deployment. cbn. rewrite !filter_app. cbn.
  rewrite Hnd, Hnv, Z.eqb_refl. cbn. rewrite !app_nil_r.
  rewrite !filter_all; [reflexivity | |].
  - intros v Hv. apply negb_true_iff, Z.eqb_neq. specialize (H2 v Hv). lia.
  - intros r Hr. apply negb_true_iff, Z.eqb_neq. specialize (H1 r Hr). lia.
Qed.

(** X15: on a consistent database, a create that succeeded followed by the
    deletion of its only version, or by the deletion of the deployment
    (addressed by name, by a logged-in user, the directory deletion
    returning), gives back exactly the rows from before the create. *)
Theorem create_then_delete_restores_rows request req w w1 body form :
  db_consistent (db w) = true ->
  Deployments_post env request w = (w1, JsonResponse body) ->
  get_validated_form env request = Ok form ->
  user_is_authenticated req = true ->
  lookup_field req = "name" ->
  (upload_outcome env (fs_calls w1)
     (delete_hosted_deployment_call (ByInstance (new_deployment w form)))
   = None ->
   DeploymentVersionView_delete env req (form_name form) (form_version form) w1
   = (mkWorld (mkDB (tables (db w)) (next_deployment_id (db w1))
                    (next_version_id (db w1)))
              (fs_calls w1
                 ++ [delete_hosted_deployment_call
                       (ByInstance (new_deployment w form))]),
      JsonResponse SuccessJson))
  /\ (upload_outcome env (fs_calls w1)
        (delete_hosted_deployment_call (ByName (form_name form))) = None ->
      Deployment_delete env req (form_name form) w1
      = (mkWorld (mkDB (tables (db w)) (next_deployment_id (db w1))
                       (next_version_id (db w1)))
                 (fs_calls w1
                    ++ [delete_hosted_deployment_call
                          (ByName (form_name form))]),
         JsonResponse SuccessJson)).
Proof.
  intros Hdb Hpost Hform Hauth Hfield.
  destruct (lookup_created_by_name request req w w1 body form Hpost Hform
              Hfield) as (Hl & Hrows & _).
  pose proof (db_consistent_spec _ Hdb) as (_ & H2 & _).
  split; intros Hcall.
  - rewrite (DeploymentVersionView_delete_steps env _ _ _ _ _ Hauth Hl).
    cbv zeta. rewrite without_label_versions, Hrows.
    cbn -[without_deployment without_label deployment_versions].
    rewrite deployment_versions_app, deployment_versions_fresh by exact H2.
    cbn -[without_deployment without_label].
    rewrite Z.eqb_refl. cbn -[without_deployment without_label].
    rewrite String.eqb_refl. cbn -[without_deployment without_label].
    rewrite Hcall.
    rewrite (without_deployment_label _ _
               (mkTables
                  (deployments (tables (db w)) ++ [new_deployment w form])
                  (versions (tables (db w))
                     ++ [new_version w (next_deployment_id (db w))
                           (form_version form)]))).
    rewrite (without_new_deployment (db w)) by (try assumption; reflexivity).
    reflexivity.
  - rewrite (Deployment_delete_steps env _ _ _ _ Hauth Hl). cbv zeta.
    cbn -[without_deployment]. rewrite Hcall, Hrows.
    rewrite (without_new_deployment (db w)) by (try assumption; reflexivity).
    reflexivity.
Qed.

(** ** Reading one version *)

(** [DeploymentVersionView.get] once the deployment is found. *)
Lemma DeploymentVersionView_get_found req deployment_id version w d :
  lookup_deployment req deployment_id w = (w, Ok d) ->
  DeploymentVersionView_get req deployment_id version w
  = (w, match filter (has_label version)
                (deployment_versions (sd_id d) (versions (tables (db w)))) with
        | [] => HttpResponseNotFound
        | [version_model] => JsonResponse (VersionJson version_model)
        | _ :: _ :: _ => server_error
        end).
Proof.
  intros Hl. unfold DeploymentVersionView_get, with_caught_exceptions.
  rewrite (bind_lookup_found _ _ _ _ _ Hl).
  unfold bind, instance_of, bind, get_or_none,
    DeploymentVersion_objects_get_version.
  destruct (filter (has_label version) _) as [| a [| b rest]]; reflexivity.
Qed.

Lemma filter_complement_none {A} (f : A -> bool) l :
  filter f (filter (fun x => negb (f x)) l) = [].
Proof.
  apply filter_none. intros x Hx. apply filter_In in Hx.
  destruct Hx as [_ Hx]. now apply negb_true_iff in Hx.
Qed.

Lemma unique_label_selects l v version :
  NoDup (map dv_version l) ->
  In v l ->
  dv_version v = version ->
  filter (has_label version) l = [v].
Proof.
  induction l as [| a l IH]; intros Hnodup Hin Hlabel; [destruct Hin |].
  cbn in Hnodup. inversion Hnodup as [| x xs Hfresh Hrest]; subst.
  cbn. unfold has_label at 1. destruct Hin as [-> | Hin].
  - rewrite String.eqb_refl. f_equal.
    apply filter_none. intros y Hy. unfold has_label. apply String.eqb_neq.
    intros Heq. apply Hfresh. rewrite <- Heq. now apply in_map.
  - replace (dv_version a =? dv_version v)%string with false.
    + now apply IH.
    + symmetry. apply String.eqb_neq. intros Heq. apply Hfresh.
      rewrite Heq. now apply in_map.
Qed.

(** X16: where the labels of a deployment are pairwise different (as in
    every reachable world), reading a version by its label answers with
    exactly that version row, and reading a label that no version of the
    deployment has is answered 404; the ambiguity error of the query does
    not occur. *)
Theorem version_read_by_label req deployment_id version w d :
  labels_unique (tables (db w)) ->
  lookup_deployment req deployment_id w = (w, Ok d) ->
  (forall v, In v (versions (tables (db w))) ->
             dv_deployment v = sd_id d ->
             dv_version v = version ->
             DeploymentVersionView_get req deployment_id version w
             = (w, JsonResponse (VersionJson v)))
  /\ ((forall v, In v (versions (tables (db w))) ->
                 dv_deployment v = sd_id d -> dv_version v <> version) ->
      DeploymentVersionView_get req deployment_id version w
      = (w, HttpResponseNotFound)).
Proof.
  intros Hunique Hl.
  rewrite (DeploymentVersionView_get_found _ _ _ _ _ Hl). split.
  - intros v Hv Hfk Hlabel.
    rewrite (unique_label_selects _ v version); [reflexivity | | | exact Hlabel].
    + apply Hunique.
    + apply filter_In. split; [exact Hv |]. now apply Z.eqb_eq.
  - intros Habsent. rewrite (label_is_new d version _ Habsent). reflexivity.
Qed.

(** X17: after a DeleteVersion that left another label of the deployment
    (logged-in user, the directory deletion returning), reading the deleted
    label is answered 404, and the labels of the deployment are the ones
    from before without the deleted one, in the same order. *)
Theorem deleted_version_is_gone req deployment_id version w d other :
  user_is_authenticated req = true ->
  lookup_deployment req deployment_id w = (w, Ok d) ->
  In other (versions (tables (db w))) ->
  dv_deployment other = sd_id d ->
  dv_version other <> version ->
  upload_outcome env (fs_calls w)
    (delete_hosted_version_call (sd_name d) version) = None ->
  let w' := fst (DeploymentVersionView_delete env req deployment_id version w) in
  DeploymentVersionView_get req deployment_id version w'
  = (w', HttpResponseNotFound)
  /\ map dv_version
       (deployment_versions (sd_id d) (versions (tables (db w'))))
     = filter (fun label => negb (label =? version)%string)
         (map dv_version
            (deployment_versions (sd_id d) (versions (tables (db w))))).
Proof.
  intros Hauth Hl Hin Hfk Hother Hcall.
  destruct (delete_version_others_remain env req deployment_id version w d
              other Hauth Hl Hin Hfk Hother Hcall) as [-> _].
  cbn -[without_label deployment_versions]. split.
  - erewrite DeploymentVersionView_get_found
      by (apply (lookup_deployment_still_found req deployment_id w);
          [reflexivity | exact Hl]).
    cbn -[without_label deployment_versions].
    rewrite without_label_versions.
    unfold has_label at 1. rewrite filter_complement_none. reflexivity.
  - rewrite without_label_versions, filter_map_swap. reflexivity.
Qed.

(** ** The listing *)

Lemma filter_split_permutation {A} (p : A -> bool) l :
  Permutation (filter p l ++ filter (fun x => negb (p x)) l) l.
Proof.
  induction l as [| a l IH]; cbn; [constructor |].
  destruct (p a); cbn.
  - now constructor.
  - apply Permutation_sym, Permutation_cons_app, Permutation_sym, IH.
Qed.

(** The versions of the deployments of a table, deployment after
    deployment, are the versions of the table. *)
Lemma versions_by_deployment ds : forall vs,
  distinct (map sd_id ds) = true ->
  (forall v, In v vs -> exists d, In d ds /\ sd_id d = dv_deployment v) ->
  Permutation
    (List.concat (map (fun d => deployment_versions (sd_id d) vs) ds)) vs.
Proof.
  induction ds as [| d ds IH]; intros vs Hdistinct Howned; cbn.
  - destruct vs as [| v vs]; [constructor |].
    destruct (Howned v (or_introl eq_refl)) as (o & [] & _).
  - cbn in Hdistinct. apply andb_true_iff in Hdistinct.
    destruct Hdistinct as [Hfresh Hdistinct].
    apply negb_true_iff in Hfresh.
    assert (Hother : forall o, In o ds -> sd_id o <> sd_id d).
    { intros o Ho Heq.
      assert (existsb (Z.eqb (sd_id d)) (map sd_id ds) = true)
        by (apply existsb_exists; exists (sd_id o); split;
            [now apply in_map | apply Z.eqb_eq; lia]).
      congruence. }
    set (rest := filter (fun v => negb (dv_deployment v =? sd_id d)) vs).
    rewrite (map_ext_in _ (fun o => deployment_versions (sd_id o) rest)).
    2:{ intros o Ho. subst rest. symmetry.
        apply versions_of_other_deployment. now apply Hother. }
    eapply Permutation_trans;
      [| apply (filter_split_permutation
                  (fun v => dv_deployment v =? sd_id d))].
    apply Permutation_app_head. apply IH; [exact Hdistinct |].
    intros v Hv. subst rest. apply filter_In in Hv. destruct Hv as [Hv Hneq].
    apply negb_true_iff, Z.eqb_neq in Hneq.
    destruct (Howned v Hv) as (o & [<- | Ho] & Hid);
      [congruence | now exists o].
Qed.

(** X18: for a logged-in user, on a consistent database in which every
    version belongs to a deployment of the table (as in every reachable
    world), the listing has one entry per deployment in creation order,
    every version under an entry points to that entry's deployment, and the
    versions of all entries together are the versions of the table, each
    shown once. *)
Theorem listing_shows_every_version_once req w :
  user_is_authenticated req = true ->
  db_consistent (db w) = true ->
  versions_owned (tables (db w)) ->
  exists data,
    Deployments_get req w = (w, JsonResponse (DeploymentsJson data))
    /\ map fst data = deployments (tables (db w))
    /\ (forall d vs v, In (d, vs) data -> In v vs ->
                      dv_deployment v = sd_id d)
    /\ Permutation (List.concat (map snd data)) (versions (tables (db w))).
Proof.
  intros Hauth Hdb Howned.
  apply db_consistent_spec in Hdb. destruct Hdb as (_ & _ & _ & H4 & _).
  eexists. split; [| split; [| split]].
  - unfold Deployments_get, with_caught_exceptions, with_login_required,
      serialize.
    rewrite Hauth. reflexivity.
  - rewrite map_map. cbn. apply map_id.
  - intros d vs v Hentry Hv. apply in_map_iff in Hentry.
    destruct Hentry as (o & [= <- <-] & _).
    apply filter_In in Hv. destruct Hv as [_ Hv]. now apply Z.eqb_eq.
  - rewrite map_map. cbn. now apply versions_by_deployment.
Qed.

End Lifecycle.

(** ** Logging in *)

Section LoginProperties.

Variable User : Type.
Variable authenticate : HttpRequest -> string -> string -> option User.
Variable login : HttpRequest -> User -> M unit.

Lemma POST_getitem_found key req value w :
  POST_last key (POST req) = Some value ->
  POST_getitem key req w = (w, Ok value).
Proof. intros H. unfold POST_getitem. rewrite H. reflexivity. Qed.

Lemma POST_getitem_missing key req w :
  POST_last key (POST req) = None ->
  POST_getitem key req w = (w, Raise (MultiValueDictKeyError key)).
Proof. intros H. unfold POST_getitem. rewrite H. reflexivity. Qed.

(** X19: [login_user] turns away, without running [login] and without
    changing the world, a request whose method is not POST (405 allowing
    POST), a POST that lacks the username or the password (400 asking for
    both, and [authenticate] is not what decides), and a POST whose
    credentials [authenticate] rejects (403 with the message of the
    exception handler, not the one the view raised). *)
Theorem login_user_refusals method req w :
  (method <> "POST" ->
   login_user User authenticate login method req w
   = (w, HttpResponseNotAllowed ["POST"]))
  /\ (method = "POST" ->
      POST_last "username" (POST req) = None
        \/ POST_last "password" (POST req) = None ->
      login_user User authenticate login method req w
      = (w, Handled (HttpResponseBadRequest
                       "You must supply both a username and password")))
  /\ (forall username password,
        method = "POST" ->
        POST_last "username" (POST req) = Some username ->
        POST_last "password" (POST req) = Some password ->
        authenticate req username password = None ->
        login_user User authenticate login method req w
        = (w, Handled (HttpResponseForbidden
                         "Invalid username or password provided"))).
Proof.
  unfold login_user, require_POST. split; [| split].
  - intros Hmethod. cbn.
    replace (method =? "POST")%string with false
      by (symmetry; now apply String.eqb_neq).
    reflexivity.
  - intros -> Hmissing. cbn.
    unfold with_caught_exceptions, with_default_success.
    unfold bind at 1. unfold bind at 1. unfold except_MultiValueDictKeyError.
    unfold bind at 1.
    destruct (POST_last "username" (POST req)) as [username |] eqn:Hu.
    + destruct Hmissing as [Hmissing | Hmissing]; [discriminate |].
      rewrite (POST_getitem_found _ _ _ _ Hu).
      unfold bind at 1. rewrite (POST_getitem_missing _ _ _ Hmissing).
      reflexivity.
    + rewrite (POST_getitem_missing _ _ _ Hu). reflexivity.
  - intros username password -> Hu Hp Hrejected. cbn.
    unfold with_caught_exceptions, with_default_success.
    unfold bind at 1. unfold bind at 1. unfold except_MultiValueDictKeyError.
    unfold bind at 1. rewrite (POST_getitem_found _ _ _ _ Hu).
    unfold bind at 1. rewrite (POST_getitem_found _ _ _ _ Hp).
    cbn. rewrite Hrejected. reflexivity.
Qed.

(** X20: a POST with both credentials that [authenticate] accepts runs
    [login] with the user that [authenticate] gave, for the last username
    and the last password sent, and answers with the success message when
    [login] returns. *)
Theorem login_user_accepts method req w username password user :
  method = "POST" ->
  POST_last "username" (POST req) = Some username ->
  POST_last "password" (POST req) = Some password ->
  authenticate req username password = Some user ->
  login_user User authenticate login method req w
  = (let (w', r) := login req user w in
     (w', Handled match r with
                  | Ok _ => JsonResponse SuccessJson
                  | Raise e => exception_response e
                  end)).
Proof.
  intros -> Hu Hp Haccepted.
  unfold login_user, require_POST. cbn.
  unfold with_caught_exceptions, with_default_success.
  unfold bind at 1. unfold bind at 1. unfold except_MultiValueDictKeyError.
  unfold bind at 1. rewrite (POST_getitem_found _ _ _ _ Hu).
  unfold bind at 1. rewrite (POST_getitem_found _ _ _ _ Hp).
  cbn. rewrite Haccepted.
  destruct (login req user w) as [w' [[] | e]]; reflexivity.
Qed.

End LoginProperties.

(** * The lifecycle properties on the blog deployment *)

Lemma world_v2_reachable : reachable env_ok world_v2.
Proof.
  apply (reachable_step env_ok world_v1).
  - apply (reachable_step env_ok empty_world).
    + apply reachable_empty.
    + apply InitialUpload.
  - apply NewVersionUpload.
Qed.

Lemma reachable_at_most_one_active_witness :
  at_most_one_active (tables (db world_v2)).
Proof.
  exact (reachable_at_most_one_active env_ok world_v2 world_v2_reachable).
Defined.

Lemma reachable_owned_and_versioned_witness :
  versions_owned (tables (db world_v2))
  /\ deployments_versioned (tables (db world_v2)).
Proof.
  exact (reachable_owned_and_versioned env_ok world_v2 world_v2_reachable).
Defined.

Lemma reachable_names_unique_witness : names_unique (tables (db world_v2)).
Proof.
  exact (reachable_names_unique env_ok world_v2 world_v2_reachable).
Defined.

Lemma reachable_labels_unique_witness : labels_unique (tables (db world_v2)).
Proof.
  exact (reachable_labels_unique env_ok world_v2 world_v2_reachable).
Defined.

Lemma world_v2_labels_unique : labels_unique (tables (db world_v2)).
Proof.
  intros k. rewrite world_v2_rows. destruct (Z.eq_dec k 1) as [-> | Hk].
  - cbn. constructor; [intros [H | []]; discriminate H |].
    constructor; [intros [] | constructor].
  - unfold deployment_versions. rewrite filter_none; [constructor |].
    intros v [<- | [<- | []]];
      change ((1 =? k) = false); apply Z.eqb_neq; lia.
Qed.

Lemma world_v2_versions_owned : versions_owned (tables (db world_v2)).
Proof.
  intros v Hv. exists blog. split; [left; reflexivity |].
  destruct Hv as [<- | [<- | []]]; reflexivity.
Qed.

Lemma login_required_witness :
  let forbidden :=
    (world_v2,
     HttpResponseForbidden "You must be logged into access this view") in
  Deployments_get (anonymous "name") world_v2 = forbidden
  /\ Deployments_post env_ok (anonymous "name") world_v2 = forbidden
  /\ Deployment_delete env_ok (anonymous "name") "blog" world_v2 = forbidden
  /\ DeploymentVersionView_post env_ok (anonymous "name") "blog" "v3" world_v2
     = forbidden
  /\ DeploymentVersionView_delete env_ok (anonymous "name") "blog" "v3"
       world_v2 = forbidden.
Proof.
  exact (login_required env_ok (anonymous "name") "blog" "v3" world_v2 eq_refl).
Defined.

Lemma invalid_create_changes_nothing_witness :
  Deployments_post env_ok (upload_request EmptyString "blog-sub" "v9") world_v1
  = (world_v1, HttpResponseBadRequest "must not be empty")
  /\ Deployments_post env_ok (upload_request "shop" EmptyString "v9") world_v1
     = (world_v1, HttpResponseBadRequest "must not be empty").
Proof.
  split.
  - destruct (invalid_create_changes_nothing env_ok
                (upload_request EmptyString "blog-sub" "v9") world_v1 eq_refl)
      as (_ & Hname & _).
    apply (Hname (mkForm EmptyString "blog-sub" "v9")
             (BadInputException "must not be empty")); reflexivity.
  - destruct (invalid_create_changes_nothing env_ok
                (upload_request "shop" EmptyString "v9") world_v1 eq_refl)
      as (_ & _ & Hsub).
    apply (Hsub (mkForm "shop" EmptyString "v9")
             (BadInputException "must not be empty")); reflexivity.
Defined.

Lemma initial_upload_commits_witness :
  Deployments_post env_ok (upload_request "blog" "blog-sub" "v1") empty_world
  = (world_v1,
     JsonResponse (CreatedJson "blog" "blog-sub" "v1"
                     "https://blog-sub.example.com/")).
Proof.
  exact (initial_upload_commits env_ok (upload_request "blog" "blog-sub" "v1")
           empty_world (mkForm "blog" "blog-sub" "v1") archive
           eq_refl eq_refl eq_refl eq_refl eq_refl eq_refl eq_refl eq_refl).
Defined.

Lemma upload_without_file_witness :
  Deployments_post env_ok (upload_request_without_file "shop" "shop-sub" "v1")
    world_v2
  = (mkWorld (mkDB (tables (db world_v2)) 3 4) (fs_calls world_v2),
     server_error)
  /\ DeploymentVersionView_post env_ok
       (upload_request_without_file "shop" "shop-sub" "v1") "1" "v3" world_v2
     = (mkWorld (mkDB (tables (db world_v2)) 2 4) (fs_calls world_v2),
        server_error).
Proof.
  destruct (upload_without_file env_ok
              (upload_request_without_file "shop" "shop-sub" "v1") "1" "v3"
              world_v2 eq_refl eq_refl) as [Hfirst Hfurther].
  split.
  - apply (Hfirst (mkForm "shop" "shop-sub" "v1")); reflexivity.
  - apply (Hfurther blog blog_v2); try reflexivity.
    intros v [<- | [<- | []]] _; discriminate.
Defined.

Lemma new_version_then_read_witness :
  exists d,
    lookup_deployment (by_field "name") "blog" world_v1 = (world_v1, Ok d)
    /\ Deployment_get (by_field "name") "blog" world_v2
       = (world_v2,
          JsonResponse
            (DeploymentJson d
               (map dv_version
                  (deployment_versions (sd_id d)
                     (versions (tables (db world_v1))))
                  ++ ["v2"])
               "v2")).
Proof.
  exact (new_version_then_read env_ok (by_field "name") "blog" "v2" world_v1
           world_v2 (VersionJson blog_v2) eq_refl eq_refl).
Defined.

Lemma new_version_extraction_failure_witness :
  DeploymentVersionView_post env_extract_fails (by_field "name") "blog" "v2"
    world_v1
  = (mkWorld (mkDB (tables (db world_v1)) 2 3)
       (fs_calls world_v1
          ++ [handle_uploaded_static_archive_call archive "blog-sub" "v2"
                (Some false)]),
     server_error).
Proof.
  apply (new_version_extraction_failure env_extract_fails (by_field "name")
           "blog" "v2" world_v1 blog (blog_v1 true) archive
           (OSError "bad archive")); try reflexivity.
  intros v [<- | []] _. discriminate.
Defined.

Lemma failed_lookup_changes_nothing_witness :
  Deployment_get (by_field "name") "shop" world_v2
  = (world_v2, HttpResponseNotFound)
  /\ DeploymentVersionView_delete env_ok (by_field "name") "shop" "v1" world_v2
     = (world_v2, HttpResponseNotFound).
Proof.
  destruct (failed_lookup_changes_nothing env_ok (by_field "name") "shop" "v1"
              world_v2 NotFound eq_refl) as (Hget & _ & Hchange).
  split; [exact Hget |].
  destruct (Hchange eq_refl) as (_ & _ & Hdelete). exact Hdelete.
Defined.

Lemma delete_deployment_then_gone_witness :
  let w' := mkWorld (mkDB (mkTables [] []) 2 3)
              (fs_calls world_v2
                 ++ [delete_hosted_deployment_call (ByName "blog")]) in
  Deployment_delete env_ok (by_field "name") "blog" world_v2
  = (w', JsonResponse SuccessJson)
  /\ Deployment_get (by_field "name") "blog" w' = (w', HttpResponseNotFound).
Proof.
  exact (delete_deployment_then_gone env_ok (by_field "name") "blog" world_v2
           blog eq_refl eq_refl eq_refl).
Defined.

Lemma failed_deletion_rolls_back_witness :
  Deployment_delete env_delete_fails (by_field "name") "blog" world_v2
  = (mkWorld (db world_v2)
       (fs_calls world_v2 ++ [delete_hosted_deployment_call (ByName "blog")]),
     server_error)
  /\ DeploymentVersionView_delete env_delete_fails (by_field "name") "blog"
       "v2" world_v2
     = (mkWorld (db world_v2)
          (fs_calls world_v2 ++ [delete_hosted_version_call "blog" "v2"]),
        server_error).
Proof.
  destruct (failed_deletion_rolls_back env_delete_fails (by_field "name")
              "blog" "v2" world_v2 blog (OSError "rmtree") eq_refl eq_refl)
    as [Hdeployment Hversion].
  split; [apply Hdeployment | apply Hversion]; reflexivity.
Defined.

Lemma create_then_delete_restores_rows_witness :
  DeploymentVersionView_delete env_ok (by_field "name") "blog" "v1" world_v1
  = (mkWorld (mkDB (tables (db empty_world)) 2 2)
       (fs_calls world_v1 ++ [delete_hosted_deployment_call (ByInstance blog)]),
     JsonResponse SuccessJson)
  /\ Deployment_delete env_ok (by_field "name") "blog" world_v1
     = (mkWorld (mkDB (tables (db empty_world)) 2 2)
          (fs_calls world_v1 ++ [delete_hosted_deployment_call (ByName "blog")]),
        JsonResponse SuccessJson).
Proof.
  destruct (create_then_delete_restores_rows env_ok
              (upload_request "blog" "blog-sub" "v1") (by_field "name")
              empty_world world_v1
              (CreatedJson "blog" "blog-sub" "v1" (example_url blog))
              (mkForm "blog" "blog-sub" "v1")
              eq_refl eq_refl eq_refl eq_refl eq_refl)
    as [Hversion Hdeployment].
  split; [exact (Hversion eq_refl) | exact (Hdeployment eq_refl)].
Defined.

Lemma version_read_by_label_witness :
  DeploymentVersionView_get (by_field "name") "blog" "v2" world_v2
  = (world_v2, JsonResponse (VersionJson blog_v2)).
Proof.
  apply (version_read_by_label (by_field "name") "blog" "v2" world_v2 blog
           world_v2_labels_unique eq_refl).
  - right. left. reflexivity.
  - reflexivity.
  - reflexivity.
Defined.

Lemma deleted_version_is_gone_witness :
  let w' := fst (DeploymentVersionView_delete env_ok (by_field "name") "blog"
                   "v1" world_v2) in
  DeploymentVersionView_get (by_field "name") "blog" "v1" w'
  = (w', HttpResponseNotFound)
  /\ map dv_version
       (deployment_versions (sd_id blog) (versions (tables (db w'))))
     = filter (fun label => negb (label =? "v1")%string)
         (map dv_version
            (deployment_versions (sd_id blog)
               (versions (tables (db world_v2))))).
Proof.
  apply (deleted_version_is_gone env_ok (by_field "name") "blog" "v1" world_v2
           blog blog_v2); try reflexivity.
  - right. left. reflexivity.
  - discriminate.
Defined.

Lemma listing_shows_every_version_once_witness :
  exists data,
    Deployments_get (by_field "name") world_v2
    = (world_v2, JsonResponse (DeploymentsJson data))
    /\ map fst data = deployments (tables (db world_v2))
    /\ (forall d vs v, In (d, vs) data -> In v vs ->
                      dv_deployment v = sd_id d)
    /\ Permutation (List.concat (map snd data))
         (versions (tables (db world_v2))).
Proof.
  exact (listing_shows_every_version_once (by_field "name") world_v2
           eq_refl eq_refl world_v2_versions_owned).
Defined.

Lemma login_user_accepts_witness :
  login_user string example_authenticate example_login "POST"
    (login_request [("username", "alice"); ("password", "wrong");
                    ("password", "sesame")])
    world_v2
  = (world_v2, Handled (JsonResponse SuccessJson)).
Proof.
  exact (login_user_accepts string example_authenticate example_login "POST"
           (login_request [("username", "alice"); ("password", "wrong");
                           ("password", "sesame")])
           world_v2 "alice" "sesame" "alice" eq_refl eq_refl eq_refl eq_refl).
Defined.

Lemma one_active_each_kept_witness :
  one_active_each (tables (db world_v2)) = true.
Proof.
  apply (one_active_each_kept env_ok world_v1 world_v2);
    [reflexivity | reflexivity |].
  right. left. exists (by_field "name"), "blog", "v2". reflexivity.
Defined.

Lemma one_active_each_kept_by_delete_witness :
  one_active_each
    (tables (db (fst (DeploymentVersionView_delete env_ok (by_field "name")
                        "blog" "v1" world_v2)))) = true.
Proof.
  apply (one_active_each_kept_by_delete env_ok (by_field "name") "blog" "v1"
           world_v2); [reflexivity | reflexivity |].
  intros d active_version other Hl Hactive Hlabel _ _.
  injection Hl as <-. injection Hactive as <-. discriminate Hlabel.
Defined.

Lemma new_version_upload_commits_witness :
  DeploymentVersionView_post env_ok (by_field "name") "blog" "v2" world_v1
  = (world_v2, JsonResponse (VersionJson blog_v2)).
Proof.
  apply (new_version_upload_commits env_ok (by_field "name") "blog" "v2"
           world_v1 blog (blog_v1 true) archive); try reflexivity.
  intros v [<- | []] _. discriminate.
Defined.
